(** * Freshdesk API utilities ([lib/utils.js]): request translation and
      response classification

    A shallow embedding of [FreshdeskError], [createResponseHandler] and
    [makeRequest].  JavaScript values are a small inductive type, objects
    used as dictionaries are finite maps or association lists, and the
    effects of the code (calls of the callback, the HTTP call, thrown
    exceptions and rejected promises) are explicit: a computation yields the
    list of events it performed and either a value or the thrown error. *)

From Stdlib Require Import ZArith Lia.
From stdpp Require Import base strings list gmap.

(** ** JavaScript values *)

(** The fragment of JavaScript values that the module handles: request and
    response payloads are JSON values; [JFile] stands for an opaque object
    (a stream, Blob or File handed over as an attachment).  Numbers are the
    integers, which is all the module compares ([statusCode]).  The fields of
    [JObj] are the object's own properties in [Object.keys] order. *)
#[warnings="-register-all"]
Inductive JsValue : Type :=
| JUndefined
| JNull
| JBool (b : bool)
| JNum (n : Z)
| JStr (s : string)
| JArr (elems : list JsValue)
| JObj (fields : list (string * JsValue))
| JFile (name : string).

(** Truthiness, as tested by [if (v)] and [v || d]. *)
Definition ToBoolean (v : JsValue) : bool :=
  match v with
  | JUndefined | JNull => false
  | JBool b => b
  | JNum n => negb (n =? 0)%Z
  | JStr s => negb (String.eqb s "")
  | JArr _ | JObj _ | JFile _ => true
  end.

(** [Array.isArray(v)] *)
Definition isArray (v : JsValue) : bool :=
  match v with JArr _ => true | _ => false end.

(** First binding of [key] in a property list. *)
Fixpoint lookup_field (key : string) (fields : list (string * JsValue))
  : option JsValue :=
  match fields with
  | [] => None
  | (k, v) :: rest => if String.eqb k key then Some v else lookup_field key rest
  end.

(** [v[key]] for a named (non-index) property and a [v] that is neither
    [null] nor [undefined]: the property of an object, [undefined] on
    anything else (a primitive, an array or an opaque object has no such
    property). *)
Definition js_prop (v : JsValue) (key : string) : JsValue :=
  match v with
  | JObj fields => default JUndefined (lookup_field key fields)
  | _ => JUndefined
  end.

(** [Object.keys(v)]; it is reached for plain objects only. *)
Definition Object_keys (v : JsValue) : list string :=
  match v with
  | JObj fields => fields.*1
  | _ => []
  end.

(** ** Responses, requests and errors *)

(** A header of an incoming response is a string, or a list of strings when
    the header line occurred more than once (undici's
    [Record<string, string | string[] | undefined>]). *)
Inductive HeaderValue : Type :=
| HStr (s : string)
| HList (l : list string).

(** ["string" === typeof h], for a header slot that may be absent. *)
Definition typeof_string (h : option HeaderValue) : option string :=
  match h with
  | Some (HStr s) => Some s
  | _ => None
  end.

(** A response body stream, modelled by what [body.json()] does with it:
    resolve with the parsed value, or reject (a [SyntaxError] when the text
    is not JSON). *)
Inductive BodyStream : Type :=
| JsonBody (parsed : JsValue)
| BadBody (name message : string).

(** A response as undici's [request] resolves with it. *)
Module Response.
Record t : Type := mk {
  statusCode : Z;
  headers : gmap string HeaderValue;
  body : option BodyStream
}.
End Response.

(** What [makeRequest] sends as a body: [JsonText data] is the text
    [JSON.stringify(data)], [BodyForm entries] a [FormData] object with
    these entries. *)
Inductive RequestBody : Type :=
| JsonText (data : JsValue)
| BodyForm (entries : list (string * JsValue)).

(** [options], the second argument of undici's [request]. *)
Module Options.
Record t : Type := mk {
  method : string;
  headers : gmap string HeaderValue;
  query : gmap string string;
  body : option RequestBody
}.
End Options.

(** [req = {...options, url, path}] *)
Module Request.
Record t : Type := mk {
  options : Options.t;
  url : string;
  path : string
}.
Definition method (r : t) : string := Options.method (options r).
Definition headers (r : t) : gmap string HeaderValue := Options.headers (options r).
End Request.

(** The [request] property of a transport error, read for its [body] only. *)
Module ErrorRequest.
Record t : Type := mk { body : option BodyStream }.
End ErrorRequest.

(** A plain [Error] (or [TypeError], [SyntaxError], a transport error ...),
    with the two optional properties [makeRequest] looks at. *)
Module JsError.
Record t : Type := mk {
  name : string;
  message : string;
  response : option Response.t;
  request : option ErrorRequest.t
}.
(** [new Error(message)] and friends *)
Definition plain (name message : string) : t := mk name message None None.
End JsError.

(** The second argument of the response handler.  [makeRequest] passes the
    transport's response, and on its two error paths [error.request] or its
    own [req] object. *)
Inductive ResponseArg : Type :=
| FromTransport (r : Response.t)
| FromErrorRequest (r : ErrorRequest.t)
| FromReq (r : Request.t).

(** [response.statusCode] *)
Definition arg_statusCode (res : ResponseArg) : option Z :=
  match res with
  | FromTransport r => Some (Response.statusCode r)
  | FromErrorRequest _ | FromReq _ => None
  end.

(** [response.headers] *)
Definition arg_headers (res : ResponseArg) : option (gmap string HeaderValue) :=
  match res with
  | FromTransport r => Some (Response.headers r)
  | FromErrorRequest _ => None
  | FromReq r => Some (Request.headers r)
  end.

(** [class FreshdeskError extends Error] *)
Module FreshdeskError.
Record t : Type := mk {
  name : string;
  message : JsValue;
  data : JsValue;
  status : option Z;
  apiTarget : string;
  requestId : option HeaderValue
}.
End FreshdeskError.

(** What can be thrown, and what the callback gets as its first argument. *)
Inductive ErrVal : Type :=
| Generic (e : JsError.t)
| Protocol (e : FreshdeskError.t).

(** [extra], the third argument of a successful callback call. *)
Module Extra.
Record t : Type := mk {
  pageIsLast : bool;
  requestId : string;
  _headersLink : option string
}.
End Extra.

(** ** Effects *)

(** One call of the callback: [cb(error)] or [cb(null, body, extra)]. *)
Inductive CbCall : Type :=
| CallError (e : ErrVal)
| CallSuccess (body : JsValue) (extra : Extra.t).

(** The caller's callback: it returns, or throws.  What it returns is not
    modelled: the handler and [makeRequest] hand it back as their own
    result, so a promise returned by the callback settles the promise of
    [makeRequest]. *)
Definition Callback : Type := CbCall -> option ErrVal.

Inductive Event : Type :=
| Requested (url : string) (options : Options.t)
| Called (c : CbCall).

Inductive Completion (A : Type) : Type :=
| Normal (a : A)
| Throw (e : ErrVal).
Arguments Normal {A} a.
Arguments Throw {A} e.

(** A computation: the events performed, then the value or the exception.
    For the [async] function [makeRequest], [Throw] is a promise rejected
    with the exception, and [Normal] means that its code threw nothing and
    returned what the call of the callback returned. *)
Definition M (A : Type) : Type := list Event * Completion A.

Definition ret {A} (a : A) : M A := ([], Normal a).
Definition throw {A} (e : ErrVal) : M A := ([], Throw e).

Definition bind {A B} (m : M A) (k : A -> M B) : M B :=
  match m.2 with
  | Normal a => let '(t', r) := k a in (m.1 ++ t', r)
  | Throw e => (m.1, Throw e)
  end.

(** [try { m } catch (error) { h error }] *)
Definition try_catch {A} (m : M A) (h : ErrVal -> M A) : M A :=
  match m.2 with
  | Normal a => m
  | Throw e => let '(t', r) := h e in (m.1 ++ t', r)
  end.

Declare Scope js_scope.
Delimit Scope js_scope with js.
Notation "'let*' x ':=' m 'in' k" := (bind m (fun x => k))
  (at level 10, x name, m at level 100, k at level 200) : js_scope.
Local Open Scope js_scope.

(** [cb(...)] *)
Definition invoke (cb : Callback) (c : CbCall) : M unit :=
  ([Called c], match cb c with None => Normal tt | Some e => Throw e end).

(** The calls of the callback among the events, in order. *)
Definition callbacks (t : list Event) : list CbCall :=
  omap (fun ev => match ev with Called c => Some c | Requested _ _ => None end) t.

Definition TypeError (message : string) : ErrVal :=
  Generic (JsError.plain "TypeError" message).

(** [v.key] as an expression: it throws on [null] and [undefined]. *)
Definition GetV (v : JsValue) (key : string) : M JsValue :=
  match v with
  | JUndefined =>
      throw (TypeError ("Cannot read properties of undefined (reading '" +:+ key +:+ "')"))
  | JNull =>
      throw (TypeError ("Cannot read properties of null (reading '" +:+ key +:+ "')"))
  | _ => ret (js_prop v key)
  end.

(** [key in v]: it throws when [v] is not an object. *)
Definition HasProperty (key : string) (v : JsValue) : M bool :=
  match v with
  | JObj fields => ret (bool_decide (key ∈ fields.*1))
  | JArr _ | JFile _ => ret false
  | _ => throw (TypeError ("Cannot use 'in' operator to search for '" +:+ key +:+ "'"))
  end.

(** ** [FreshdeskError] *)

Definition default_message : string := "Error in Freshdesk's client API".

(** [new FreshdeskError(message, data, res, req)].  Reading
    [res.headers["x-request-id"]] throws when [res] has no [headers]. *)
Definition new_FreshdeskError (message data : JsValue) (res : ResponseArg)
    (req : Request.t) : M FreshdeskError.t :=
  match arg_headers res with
  | None =>
      throw (TypeError "Cannot read properties of undefined (reading 'x-request-id')")
  | Some hs =>
      ret {| FreshdeskError.name := "FreshdeskError";
             FreshdeskError.message :=
               if ToBoolean message then message else JStr default_message;
             FreshdeskError.data := data;
             FreshdeskError.status := arg_statusCode res;
             FreshdeskError.apiTarget := Request.method req +:+ " " +:+ Request.path req;
             FreshdeskError.requestId := hs !! "x-request-id" |}
  end.

(** ** [createResponseHandler] *)

(** The [extra] object after the two header tests. *)
Definition make_extra (response : ResponseArg) : Extra.t :=
  let extra := {| Extra.pageIsLast := true; Extra.requestId := "";
                  Extra._headersLink := None |} in
  let extra :=
    match arg_headers response ≫= (fun hs => typeof_string (hs !! "link")) with
    | Some link =>
        {| Extra.pageIsLast := false; Extra.requestId := Extra.requestId extra;
           Extra._headersLink := Some link |}
    | None => extra
    end in
  match arg_headers response ≫= (fun hs => typeof_string (hs !! "x-request-id")) with
  | Some id =>
      {| Extra.pageIsLast := Extra.pageIsLast extra; Extra.requestId := id;
         Extra._headersLink := Extra._headersLink extra |}
  | None => extra
  end.

Definition not_found_message : string := "The requested entity was not found".

(** [response.statusCode === n], a [case n:] label of the [switch]. *)
Definition status_is (response : ResponseArg) (n : Z) : bool :=
  match arg_statusCode response with
  | Some s => (s =? n)%Z
  | None => false
  end.

(** [createResponseHandler(cb)(error, response, body, request)].  The
    [debug] calls only write to a log and are left out. *)
Definition createResponseHandler (cb : Callback) (error : option ErrVal)
    (response : ResponseArg) (body : JsValue) (request : Request.t) : M unit :=
  match error with
  | Some e => invoke cb (CallError e)
  | None =>
      let extra := make_extra response in
      if status_is response 200 || status_is response 201 then
        invoke cb (CallSuccess body extra)
      else if status_is response 204 then
        invoke cb (CallSuccess JNull extra)
      else if status_is response 404 then
        let* e := new_FreshdeskError (JStr not_found_message) body response request in
        invoke cb (CallError (Protocol e))
      else
        (* case 409: default: *)
        let* description := GetV body "description" in
        let* e := new_FreshdeskError description body response request in
        invoke cb (CallError (Protocol e))
  end.

(** ** [makeRequest] *)

(** What [await request(url, options)] does: resolve with a response or
    reject with an error. *)
Inductive TransportResult : Type :=
| Resolved (response : Response.t)
| Rejected (error : JsError.t).

(** The runtime [makeRequest] runs on: the [URL] constructor (the
    [pathname] of the parsed URL, [None] when the constructor throws) and
    undici's [request]. *)
Record Runtime : Type := {
  URL_pathname : string -> option string;
  request : string -> Options.t -> TransportResult
}.

(** A [FormData] object is the list of its entries, in the order of the
    [append] calls. *)
Definition FormData : Type := list (string * JsValue).

Definition form_append (form : FormData) (name : string) (value : JsValue)
  : FormData :=
  form ++ [(name, value)].

(** [for (let i = i0; i < i0 + count; i++) s = step i s] *)
Fixpoint for_loop {S : Type} (count i : nat) (step : nat -> S -> S) (s : S) : S :=
  match count with
  | O => s
  | Datatypes.S count' => for_loop count' (Datatypes.S i) step (step i s)
  end.

(** The inner loop: [form.append(key + "[]", data[key][i])] for each index. *)
Definition append_elements (key : string) (arr : list JsValue) (form : FormData)
  : FormData :=
  for_loop (length arr) 0
    (fun i form => form_append form (key +:+ "[]") (default JUndefined (arr !! i)))
    form.

(** The outer loop over [Object.keys(data)]. *)
Definition append_fields (data : JsValue) (form : FormData) : FormData :=
  for_loop (length (Object_keys data)) 0
    (fun i form =>
       let key := default "undefined" (Object_keys data !! i) in
       match js_prop data key with
       | JArr arr => append_elements key arr form
       | value => form_append form key value
       end)
    form.

(** The first part of [makeRequest]: [options] with its headers and body. *)
Definition build_options (method auth : string) (qs : gmap string string)
    (data : JsValue) : M Options.t :=
  let options :=
    {| Options.method := method;
       Options.headers :=
         <["Authorization" := HStr auth]>
           {["Content-Type" := HStr "application/json"]};
       Options.query := qs;
       Options.body := None |} in
  if ToBoolean data then
    let* has_attachments := HasProperty "attachments" data in
    if has_attachments && isArray (js_prop data "attachments") then
      let form := append_fields data [] in
      ret {| Options.method := Options.method options;
             Options.headers :=
               <["Content-Type" := HStr "multipart/form-data"]>
                 (Options.headers options);
             Options.query := Options.query options;
             Options.body := Some (BodyForm form) |}
    else
      ret {| Options.method := Options.method options;
             Options.headers := Options.headers options;
             Options.query := Options.query options;
             Options.body := Some (JsonText data) |}
  else ret options.

(** [new URL(url)], read for its [pathname]. *)
Definition new_URL (rt : Runtime) (url : string) : M string :=
  match URL_pathname rt url with
  | Some pathname => ret pathname
  | None => throw (TypeError "Invalid URL")
  end.

(** [await request(url, options)] *)
Definition await_request (rt : Runtime) (url : string) (options : Options.t)
  : M Response.t :=
  ([Requested url options],
   match request rt url options with
   | Resolved response => Normal response
   | Rejected error => Throw (Generic error)
   end).

(** [b ? await b.json() : null] *)
Definition await_json (b : option BodyStream) : M JsValue :=
  match b with
  | Some (JsonBody v) => ret v
  | Some (BadBody name message) => throw (Generic (JsError.plain name message))
  | None => ret JNull
  end.

(** The [catch (error)] block of [makeRequest]. *)
Definition on_error (cb : Callback) (req : Request.t) (error : ErrVal) : M unit :=
  match error with
  | Generic e =>
      match JsError.response e with
      | Some response =>
          let* data := await_json (Response.body response) in
          createResponseHandler cb None (FromTransport response) data req
      | None =>
          match JsError.request e with
          | Some request =>
              let* data := await_json (ErrorRequest.body request) in
              createResponseHandler cb
                (Some (Generic (JsError.plain "Error" (JsError.message e))))
                (FromErrorRequest request) data req
          | None =>
              createResponseHandler cb (Some error) (FromReq req) JUndefined req
          end
      end
  | Protocol _ =>
      createResponseHandler cb (Some error) (FromReq req) JUndefined req
  end.

(** [{...options, url, path: fullUrl.pathname}] *)
Definition make_req (options : Options.t) (url pathname : string) : Request.t :=
  {| Request.options := options; Request.url := url; Request.path := pathname |}.

(** [makeRequest(method, auth, url, qs, data, cb)].  The handler, and with
    it the callback, runs inside the [try] block; what the [catch] block
    throws is not caught. *)
Definition makeRequest (rt : Runtime) (cb : Callback) (method auth url : string)
    (qs : gmap string string) (data : JsValue) : M unit :=
  let* options := build_options method auth qs data in
  let* pathname := new_URL rt url in
  let req := make_req options url pathname in
  try_catch
    (let* response := await_request rt url options in
     let* data := await_json (Response.body response) in
     createResponseHandler cb None (FromTransport response) data req)
    (on_error cb req).

(** ** [isNil] and [isFunction] *)

(** [typeof v] *)
Definition typeof (v : JsValue) : string :=
  match v with
  | JUndefined => "undefined"
  | JBool _ => "boolean"
  | JNum _ => "number"
  | JStr _ => "string"
  | JNull | JArr _ | JObj _ | JFile _ => "object"
  end.

(** [value === null] *)
Definition is_null (v : JsValue) : bool :=
  match v with JNull => true | _ => false end.

Definition isNil (value : JsValue) : bool :=
  if is_null value || String.eqb (typeof value) "undefined" then true else false.

(** No value of this fragment is a function: payloads and attachments are
    data. *)
Definition isFunction (value : JsValue) : bool :=
  String.eqb (typeof value) "function".

(** ** Vocabulary of the statements *)

(** The statuses that the [switch] sends to its [default:] label. *)
Definition default_branch (s : Z) : Prop :=
  s ≠ 200%Z ∧ s ≠ 201%Z ∧ s ≠ 204%Z ∧ s ≠ 404%Z.

(** A status outside 200..299. *)
Definition non_2xx (s : Z) : Prop := (s < 200 ∨ 300 <= s)%Z.

(** The entries that one field of the request body contributes to the
    form: one per element under the key suffixed with [[]] for an array,
    one under the key itself for anything else. *)
Definition field_parts (field : string * JsValue) : list (string * JsValue) :=
  match field.2 with
  | JArr elems => map (pair (field.1 +:+ "[]")) elems
  | value => [(field.1, value)]
  end.

(** [sent url options m]: the HTTP call is made, then [m] runs. *)
Definition sent (url : string) (options : Options.t) (m : M unit) : M unit :=
  (Requested url options :: m.1, m.2).

(** A value on which [in] works: an object, an array or an opaque object. *)
Definition is_object (v : JsValue) : bool :=
  String.eqb (typeof v) "object" && negb (is_null v).

(** A computation that throws before doing anything, or consists of one
    call of the callback. *)
Definition one_call_or_throw (cb : Callback) (m : M unit) : Prop :=
  (exists e, m = throw e) ∨ (exists c, m = invoke cb c).

(** What a [try] block with such a body and such a handler can do: the
    above, or a call on which the callback throws followed by what the
    handler does. *)
Definition try_outcome (cb : Callback) (m : M unit) : Prop :=
  one_call_or_throw cb m
  ∨ exists (c : CbCall) (x : ErrVal) (m' : M unit),
      cb c = Some x ∧ one_call_or_throw cb m' ∧ m = (Called c :: m'.1, m'.2).

(** ** Sample inputs

    Concrete requests and responses on which the statements below are
    evaluated. *)

Module Samples.
(** A callback that returns normally whatever it is given. *)
Definition quiet : Callback := fun _ => None.

Definition get_options : Options.t :=
  {| Options.method := "GET";
     Options.headers :=
       <["Authorization" := HStr "Basic a2V5Olg="]>
         {["Content-Type" := HStr "application/json"]};
     Options.query := ∅;
     Options.body := None |}.

Definition ticket_url : string := "https://acme.freshdesk.com/api/v2/tickets/1".

Definition get_ticket : Request.t :=
  {| Request.options := get_options;
     Request.url := ticket_url;
     Request.path := "/api/v2/tickets/1" |}.

Definition ticket : JsValue := JObj [("id", JNum 1)].

Definition with_request_id : gmap string HeaderValue :=
  {["x-request-id" := HStr "abc123"]}.

Definition ok_response : Response.t :=
  Response.mk 200 with_request_id (Some (JsonBody ticket)).

(** The answer to a DELETE: status 204 and an empty body.  The transport
    hands over a body stream all the same, and [json()] rejects on the
    empty text. *)
Definition deleted_response : Response.t :=
  Response.mk 204 with_request_id
    (Some (BadBody "SyntaxError" "Unexpected end of JSON input")).

Definition missing_response : Response.t :=
  Response.mk 404 with_request_id None.

(** Freshdesk's answer to a request without valid credentials: the body
    has a [code] and a [message], and no [description]. *)
Definition unauthorized_body : JsValue :=
  JObj [("code", JStr "invalid_credentials");
        ("message", JStr "You have to be logged in to perform this action.")].

Definition unauthorized_response : Response.t :=
  Response.mk 401 with_request_id (Some (JsonBody unauthorized_body)).

Definition conflict_body : JsValue :=
  JObj [("description", JStr "Validation failed");
        ("errors", JArr [JObj [("field", JStr "email");
                               ("code", JStr "duplicate_value")]])].

Definition conflict_response : Response.t :=
  Response.mk 409 with_request_id (Some (JsonBody conflict_body)).

Definition server_error_response : Response.t :=
  Response.mk 500 ∅ None.


(** A runtime that knows the URLs of one Freshdesk domain, and whose
    transport answers every call with [result]. *)
Definition origin : string := "https://acme.freshdesk.com".

Definition runtime (result : TransportResult) : Runtime :=
  {| URL_pathname := fun url =>
       if String.prefix origin url
       then Some (String.substring (String.length origin)
                    (String.length url - String.length origin) url)
       else None;
     request := fun _ _ => result |}.

(** A 200 response whose body is an HTML page, not JSON. *)
Definition html_response : Response.t :=
  Response.mk 200 ∅
    (Some (BadBody "SyntaxError" "Unexpected token < in JSON at position 0")).

(** Transport errors: a refused connection (undici's errors have neither
    [response] nor [request]), and errors that carry the request or a
    response. *)
Definition connection_refused : JsError.t :=
  JsError.plain "Error" "connect ECONNREFUSED 127.0.0.1:443".

Definition no_answer : JsError.t :=
  JsError.mk "Error" "socket hang up" None (Some (ErrorRequest.mk None)).

Definition failed_with (response : Response.t) : JsError.t :=
  JsError.mk "Error" "Request failed" (Some response) None.

(** The headers of a page that has a next page. *)
Definition next_link : gmap string HeaderValue :=
  {["link" := HStr "<https://acme.freshdesk.com/api/v2/tickets?page=2>; rel=next"]}.

(** A response in which the [Link] header line occurs twice: undici hands
    such a header over as a list. *)
Definition two_links : gmap string HeaderValue :=
  {["link" := HList ["<https://acme.freshdesk.com/api/v2/tickets?page=3>; rel=next";
                      "<https://acme.freshdesk.com/api/v2/tickets?page=1>; rel=prev"]]}.
End Samples.

(** * Properties *)

(** ** The monad *)

Lemma bind_ret {A B} (a : A) (k : A -> M B) : bind (ret a) k = k a.
Proof. unfold bind, ret; simpl. by destruct (k a). Qed.

Lemma bind_throw {A B} (e : ErrVal) (k : A -> M B) : bind (throw e) k = throw e.
Proof. reflexivity. Qed.

(** What has happened stays: binding and catching only add events. *)
Lemma bind_events {A B} (m : M A) (k : A -> M B) :
  exists rest, (bind m k).1 = m.1 ++ rest.
Proof.
  unfold bind. destruct m as [t [a | e]]; simpl.
  - destruct (k a) as [t' r]. by exists t'.
  - exists []. by rewrite app_nil_r.
Qed.

Lemma try_catch_events {A} (m : M A) (h : ErrVal -> M A) :
  exists rest, (try_catch m h).1 = m.1 ++ rest.
Proof.
  unfold try_catch. destruct m as [t [a | e]]; simpl.
  - exists []. by rewrite app_nil_r.
  - destruct (h e) as [t' r]. by exists t'.
Qed.

Lemma callbacks_invoke cb c : callbacks (invoke cb c).1 = [c].
Proof. reflexivity. Qed.

(** ** The handler on a response of the transport *)

Lemma status_is_response (response : Response.t) (n : Z) :
  status_is (FromTransport response) n = (Response.statusCode response =? n)%Z.
Proof. reflexivity. Qed.

(** On a response the constructor of [FreshdeskError] returns. *)
Lemma new_FreshdeskError_response message data (response : Response.t) req :
  new_FreshdeskError message data (FromTransport response) req =
  ret {| FreshdeskError.name := "FreshdeskError";
         FreshdeskError.message :=
           if ToBoolean message then message else JStr default_message;
         FreshdeskError.data := data;
         FreshdeskError.status := Some (Response.statusCode response);
         FreshdeskError.apiTarget := Request.method req +:+ " " +:+ Request.path req;
         FreshdeskError.requestId := Response.headers response !! "x-request-id" |}.
Proof. reflexivity. Qed.

Lemma handler_200_201 cb (response : Response.t) body req :
  Response.statusCode response = 200%Z ∨ Response.statusCode response = 201%Z ->
  createResponseHandler cb None (FromTransport response) body req =
  invoke cb (CallSuccess body (make_extra (FromTransport response))).
Proof.
  intros Hs. unfold createResponseHandler. rewrite !status_is_response.
  by destruct Hs as [-> | ->].
Qed.

Lemma handler_204 cb (response : Response.t) body req :
  Response.statusCode response = 204%Z ->
  createResponseHandler cb None (FromTransport response) body req =
  invoke cb (CallSuccess JNull (make_extra (FromTransport response))).
Proof.
  intros Hs. unfold createResponseHandler. rewrite !status_is_response.
  by rewrite Hs.
Qed.

Lemma handler_404 cb (response : Response.t) body req :
  Response.statusCode response = 404%Z ->
  createResponseHandler cb None (FromTransport response) body req =
  invoke cb (CallError (Protocol
    {| FreshdeskError.name := "FreshdeskError";
       FreshdeskError.message := JStr not_found_message;
       FreshdeskError.data := body;
       FreshdeskError.status := Some 404%Z;
       FreshdeskError.apiTarget := Request.method req +:+ " " +:+ Request.path req;
       FreshdeskError.requestId := Response.headers response !! "x-request-id" |})).
Proof.
  intros Hs. unfold createResponseHandler. rewrite !status_is_response, Hs. simpl.
  rewrite new_FreshdeskError_response, bind_ret, Hs. reflexivity.
Qed.

(** On the [default:] label the handler first reads [body.description]. *)
Lemma handler_default cb (response : Response.t) body req :
  default_branch (Response.statusCode response) ->
  createResponseHandler cb None (FromTransport response) body req =
  (let* description := GetV body "description" in
   let* e := new_FreshdeskError description body (FromTransport response) req in
   invoke cb (CallError (Protocol e))).
Proof.
  intros (H200 & H201 & H204 & H404).
  unfold createResponseHandler. rewrite !status_is_response.
  apply Z.eqb_neq in H200, H201, H204, H404.
  by rewrite H200, H201, H204, H404.
Qed.

Lemma non_2xx_default_branch (s : Z) :
  non_2xx s -> s ≠ 404%Z -> default_branch s.
Proof. unfold non_2xx, default_branch. lia. Qed.

Lemma GetV_object v key :
  v ≠ JNull -> v ≠ JUndefined -> GetV v key = ret (js_prop v key).
Proof. intros Hn Hu. by destruct v. Qed.

(** The statuses are told apart: one of the four labels, or the default. *)
Lemma status_cases (s : Z) :
  s = 200%Z ∨ s = 201%Z ∨ s = 204%Z ∨ s = 404%Z ∨ default_branch s.
Proof. unfold default_branch. lia. Qed.

(** ** Classification by status *)

(** C1: for every response with status 200 or 201 the handler calls the
    callback with no error and the parsed body as payload; for every
    response with status 204 it calls it with no error and a null body. *)
Theorem handler_success (cb : Callback) (response : Response.t)
    (body : JsValue) (req : Request.t) :
  let extra := make_extra (FromTransport response) in
  (Response.statusCode response = 200%Z ∨ Response.statusCode response = 201%Z ->
   createResponseHandler cb None (FromTransport response) body req =
   invoke cb (CallSuccess body extra))
  ∧ (Response.statusCode response = 204%Z ->
     createResponseHandler cb None (FromTransport response) body req =
     invoke cb (CallSuccess JNull extra)).
Proof. split; [apply handler_200_201 | apply handler_204]. Qed.

Lemma handler_success_witness :
  createResponseHandler Samples.quiet None (FromTransport Samples.ok_response)
    Samples.ticket Samples.get_ticket =
  invoke Samples.quiet
    (CallSuccess Samples.ticket (make_extra (FromTransport Samples.ok_response)))
  ∧ createResponseHandler Samples.quiet None
      (FromTransport Samples.deleted_response) Samples.ticket Samples.get_ticket =
    invoke Samples.quiet
      (CallSuccess JNull (make_extra (FromTransport Samples.deleted_response))).
Proof.
  split.
  - apply (proj1 (handler_success Samples.quiet Samples.ok_response
                    Samples.ticket Samples.get_ticket)).
    left; reflexivity.
  - apply (proj2 (handler_success Samples.quiet Samples.deleted_response
                    Samples.ticket Samples.get_ticket)).
    reflexivity.
Defined.

(** C3: for every response with status 404, whatever the body, the handler
    calls the callback with a FreshdeskError whose message is the fixed
    "not found" text and which carries the raw body, the status 404, the
    request identifier (method and path) and the response's request id. *)
Theorem handler_not_found (cb : Callback) (response : Response.t)
    (body : JsValue) (req : Request.t) :
  Response.statusCode response = 404%Z ->
  exists e : FreshdeskError.t,
    createResponseHandler cb None (FromTransport response) body req =
    invoke cb (CallError (Protocol e))
    ∧ FreshdeskError.message e = JStr "The requested entity was not found"
    ∧ FreshdeskError.data e = body
    ∧ FreshdeskError.status e = Some 404%Z
    ∧ FreshdeskError.apiTarget e = Request.method req +:+ " " +:+ Request.path req
    ∧ FreshdeskError.requestId e = Response.headers response !! "x-request-id".
Proof.
  intros Hs. eexists. split; [by apply handler_404 |]. by repeat split.
Qed.

Lemma handler_not_found_witness :
  exists e : FreshdeskError.t,
    createResponseHandler Samples.quiet None
      (FromTransport Samples.missing_response) Samples.unauthorized_body
      Samples.get_ticket =
    invoke Samples.quiet (CallError (Protocol e))
    ∧ FreshdeskError.message e = JStr "The requested entity was not found"
    ∧ FreshdeskError.data e = Samples.unauthorized_body
    ∧ FreshdeskError.status e = Some 404%Z
    ∧ FreshdeskError.apiTarget e = "GET /api/v2/tickets/1"
    ∧ FreshdeskError.requestId e = Some (HStr "abc123").
Proof.
  apply (handler_not_found Samples.quiet Samples.missing_response
           Samples.unauthorized_body Samples.get_ticket).
  reflexivity.
Defined.

(** C10: a FreshdeskError constructed with a missing or empty message (any
    falsy one) gets the fixed default message, not an empty or undefined
    one. *)
Theorem FreshdeskError_default_message (message data : JsValue)
    (response : Response.t) (req : Request.t) :
  ToBoolean message = false ->
  exists e : FreshdeskError.t,
    new_FreshdeskError message data (FromTransport response) req = ret e
    ∧ FreshdeskError.message e = JStr "Error in Freshdesk's client API".
Proof.
  intros Hfalsy. rewrite new_FreshdeskError_response. eexists. split; [done |].
  simpl. by rewrite Hfalsy.
Qed.

Lemma FreshdeskError_default_message_witness :
  (exists e : FreshdeskError.t,
     new_FreshdeskError JUndefined Samples.unauthorized_body
       (FromTransport Samples.unauthorized_response) Samples.get_ticket = ret e
     ∧ FreshdeskError.message e = JStr "Error in Freshdesk's client API")
  ∧ (exists e : FreshdeskError.t,
       new_FreshdeskError (JStr "") Samples.unauthorized_body
         (FromTransport Samples.unauthorized_response) Samples.get_ticket = ret e
       ∧ FreshdeskError.message e = JStr "Error in Freshdesk's client API").
Proof.
  split.
  - apply (FreshdeskError_default_message JUndefined). reflexivity.
  - apply (FreshdeskError_default_message (JStr "")). reflexivity.
Defined.

(** The events of the handler on a response: at most one call of the
    callback, with the payload of the status' branch. *)
Lemma handler_events cb (response : Response.t) body req :
  let events := (createResponseHandler cb None (FromTransport response) body req).1 in
  let s := Response.statusCode response in
  (s = 200%Z ∨ s = 201%Z) ∧
    events = [Called (CallSuccess body (make_extra (FromTransport response)))]
  ∨ s = 204%Z ∧
    events = [Called (CallSuccess JNull (make_extra (FromTransport response)))]
  ∨ (s = 404%Z ∨ default_branch s) ∧
    (events = [] ∨ exists e, events = [Called (CallError (Protocol e))]).
Proof.
  cbv zeta.
  destruct (status_cases (Response.statusCode response))
    as [Hs | [Hs | [Hs | [Hs | Hs]]]].
  - left. split; [by left |]. by rewrite handler_200_201; [| left].
  - left. split; [by right |]. by rewrite handler_200_201; [| right].
  - right; left. split; [done |]. by rewrite handler_204.
  - right; right. split; [by left |]. right. rewrite handler_404; [| done]. by eexists.
  - right; right. split; [by right |]. rewrite handler_default; [| done].
    destruct body; try (right; by eexists); by left.
Qed.

(** C2, as stated, fails.  On the default label the message of the error is
    [body.description] only when that is truthy: Freshdesk's 401 body has no
    [description] and the error gets the default message.  And with a null
    body no FreshdeskError is made at all: reading [body.description]
    throws a TypeError before the callback is called. *)
Lemma handler_default_message_not_description :
  (exists e : FreshdeskError.t,
     createResponseHandler Samples.quiet None
       (FromTransport Samples.unauthorized_response) Samples.unauthorized_body
       Samples.get_ticket =
     invoke Samples.quiet (CallError (Protocol e))
     ∧ FreshdeskError.message e = JStr "Error in Freshdesk's client API"
     ∧ js_prop Samples.unauthorized_body "description" = JUndefined
     ∧ FreshdeskError.message e ≠ js_prop Samples.unauthorized_body "description")
  ∧ createResponseHandler Samples.quiet None
      (FromTransport Samples.server_error_response) JNull Samples.get_ticket =
    throw (TypeError "Cannot read properties of null (reading 'description')").
Proof.
  split; [| reflexivity].
  eexists. split; [reflexivity |]. by repeat split.
Qed.

(** C2, amended: for every response whose status is non-2xx and not 404
    (409 included) and whose parsed body is neither null nor undefined, the
    handler calls the callback with a FreshdeskError whose message is
    [body.description] when that is truthy and the default message
    otherwise, and which carries the body and the status; and the handler
    passes a success to the callback for no status other than 200, 201 and
    204. *)
Theorem handler_other_status :
  (forall (cb : Callback) (response : Response.t) (body : JsValue) (req : Request.t),
     non_2xx (Response.statusCode response) ->
     Response.statusCode response ≠ 404%Z ->
     body ≠ JNull -> body ≠ JUndefined ->
     exists e : FreshdeskError.t,
       createResponseHandler cb None (FromTransport response) body req =
       invoke cb (CallError (Protocol e))
       ∧ FreshdeskError.message e =
           (if ToBoolean (js_prop body "description")
            then js_prop body "description"
            else JStr "Error in Freshdesk's client API")
       ∧ FreshdeskError.data e = body
       ∧ FreshdeskError.status e = Some (Response.statusCode response))
  ∧ (forall (cb : Callback) (response : Response.t) (body payload : JsValue)
       (req : Request.t) (extra : Extra.t),
       Called (CallSuccess payload extra) ∈
         (createResponseHandler cb None (FromTransport response) body req).1 ->
       Response.statusCode response ∈ [200; 201; 204]%Z).
Proof.
  split.
  - intros cb response body req Hs H404 Hnull Hundef.
    rewrite handler_default, GetV_object, bind_ret
      by (done || by apply non_2xx_default_branch).
    rewrite new_FreshdeskError_response, bind_ret.
    eexists. split; [reflexivity |]. by repeat split.
  - intros cb response body payload req extra Hin.
    destruct (handler_events cb response body req)
      as [[Hs Hev] | [[Hs Hev] | [_ Hev]]]; cbv zeta in Hev.
    + destruct Hs as [-> | ->]; set_solver.
    + rewrite Hs. set_solver.
    + apply list_elem_of_In in Hin.
      destruct Hev as [Hev | [e Hev]]; rewrite Hev in Hin; simpl in Hin.
      * done.
      * by destruct Hin as [Hin | []].
Qed.

Lemma handler_other_status_witness :
  (exists e : FreshdeskError.t,
     createResponseHandler Samples.quiet None
       (FromTransport Samples.conflict_response) Samples.conflict_body
       Samples.get_ticket =
     invoke Samples.quiet (CallError (Protocol e))
     ∧ FreshdeskError.message e = JStr "Validation failed"
     ∧ FreshdeskError.data e = Samples.conflict_body
     ∧ FreshdeskError.status e = Some 409%Z)
  ∧ 200%Z ∈ [200; 201; 204]%Z.
Proof.
  split.
  - apply (proj1 handler_other_status Samples.quiet Samples.conflict_response
             Samples.conflict_body Samples.get_ticket); [| done | done | done].
    unfold non_2xx; simpl. lia.
  - apply (proj2 handler_other_status Samples.quiet Samples.ok_response
             Samples.ticket Samples.ticket Samples.get_ticket
             (make_extra (FromTransport Samples.ok_response))).
    simpl. left.
Defined.

(** ** Response headers: pagination and request id *)

Lemma make_extra_response (response : Response.t) :
  make_extra (FromTransport response) =
  {| Extra.pageIsLast :=
       bool_decide (typeof_string (Response.headers response !! "link") = None);
     Extra.requestId :=
       default "" (typeof_string (Response.headers response !! "x-request-id"));
     Extra._headersLink := typeof_string (Response.headers response !! "link") |}.
Proof.
  unfold make_extra; simpl.
  destruct (typeof_string (Response.headers response !! "link"));
    by destruct (typeof_string (Response.headers response !! "x-request-id")).
Qed.

Lemma typeof_string_Some (h : option HeaderValue) (s : string) :
  typeof_string h = Some s <-> h = Some (HStr s).
Proof.
  destruct h as [[]|]; simpl; split; intros H; by simplify_eq.
Qed.

(** The metadata of a success is the [extra] object of the response. *)
Lemma handler_success_extra cb (response : Response.t) body req payload extra :
  Called (CallSuccess payload extra) ∈
    (createResponseHandler cb None (FromTransport response) body req).1 ->
  extra = make_extra (FromTransport response).
Proof.
  intros Hin.
  destruct (handler_events cb response body req)
    as [[_ Hev] | [[_ Hev] | [_ [Hev | [e Hev]]]]];
    cbv zeta in Hev; rewrite Hev in Hin.
  - apply list_elem_of_singleton in Hin. by simplify_eq.
  - apply list_elem_of_singleton in Hin. by simplify_eq.
  - by apply elem_of_nil in Hin.
  - apply list_elem_of_singleton in Hin. by simplify_eq.
Qed.

(** The request id of a FreshdeskError is the header slot, as it is. *)
Lemma handler_error_requestId cb (response : Response.t) body req e :
  Called (CallError (Protocol e)) ∈
    (createResponseHandler cb None (FromTransport response) body req).1 ->
  FreshdeskError.requestId e = Response.headers response !! "x-request-id".
Proof.
  destruct (status_cases (Response.statusCode response))
    as [Hs | [Hs | [Hs | [Hs | Hs]]]].
  - rewrite handler_200_201 by (by left). intros Hin.
    apply list_elem_of_singleton in Hin. by simplify_eq.
  - rewrite handler_200_201 by (by right). intros Hin.
    apply list_elem_of_singleton in Hin. by simplify_eq.
  - rewrite handler_204 by done. intros Hin.
    apply list_elem_of_singleton in Hin. by simplify_eq.
  - rewrite handler_404 by done. intros Hin.
    apply list_elem_of_singleton in Hin. by simplify_eq.
  - rewrite handler_default by done.
    destruct body; simpl; intros Hin;
      first [ by apply elem_of_nil in Hin
            | apply list_elem_of_singleton in Hin; by simplify_eq ].
Qed.

(** C5, as stated, fails: a response whose Link header line occurs twice
    has a [link] header, as a list, and the flag of the success stays true. *)
Lemma handler_link_list_page_is_last :
  let response := Response.mk 200 Samples.two_links (Some (JsonBody Samples.ticket)) in
  exists extra : Extra.t,
    createResponseHandler Samples.quiet None (FromTransport response)
      Samples.ticket Samples.get_ticket =
    invoke Samples.quiet (CallSuccess Samples.ticket extra)
    ∧ Extra.pageIsLast extra = true
    ∧ is_Some (Response.headers response !! "link").
Proof. eexists. split; [reflexivity |]. split; [reflexivity |]. by eexists. Qed.

(** C5, amended: in the metadata of every success the pagination flag is
    false exactly when the response has a [link] header that is a single
    string, and it is true when the header is absent. *)
Theorem handler_page_is_last (cb : Callback) (response : Response.t)
    (body payload : JsValue) (req : Request.t) (extra : Extra.t) :
  Called (CallSuccess payload extra) ∈
    (createResponseHandler cb None (FromTransport response) body req).1 ->
  (Extra.pageIsLast extra = false <->
   exists link : string, Response.headers response !! "link" = Some (HStr link))
  ∧ (Response.headers response !! "link" = None -> Extra.pageIsLast extra = true).
Proof.
  intros Hin. apply handler_success_extra in Hin as ->.
  rewrite make_extra_response; simpl. split.
  - rewrite bool_decide_eq_false. split.
    + intros Hno. destruct (typeof_string _) as [link|] eqn:Hlink; [| done].
      exists link. by apply typeof_string_Some.
    + intros [link Hlink] Hno. apply typeof_string_Some in Hlink. congruence.
  - intros ->. reflexivity.
Qed.

Lemma handler_page_is_last_witness :
  let response :=
    Response.mk 200 Samples.next_link (Some (JsonBody Samples.ticket)) in
  let extra := make_extra (FromTransport response) in
  (Extra.pageIsLast extra = false <->
   exists link : string, Response.headers response !! "link" = Some (HStr link))
  ∧ (Response.headers response !! "link" = None -> Extra.pageIsLast extra = true).
Proof.
  intros response extra.
  apply (handler_page_is_last Samples.quiet response Samples.ticket Samples.ticket
           Samples.get_ticket extra).
  simpl. left.
Defined.

(** C6, as stated, fails on the success path: when the x-request-id header
    line occurs twice the header is a list, and the request id of the
    success metadata stays empty. *)
Lemma handler_request_id_list_dropped :
  let response :=
    Response.mk 200 {["x-request-id" := HList ["abc123"; "def456"]]}
      (Some (JsonBody Samples.ticket)) in
  exists extra : Extra.t,
    createResponseHandler Samples.quiet None (FromTransport response)
      Samples.ticket Samples.get_ticket =
    invoke Samples.quiet (CallSuccess Samples.ticket extra)
    ∧ Extra.requestId extra = ""
    ∧ Response.headers response !! "x-request-id" = Some (HList ["abc123"; "def456"]).
Proof. eexists. by repeat split. Qed.

(** C6, amended: for every response whose x-request-id header is a single
    string, that string is the request id of the metadata of a success and
    the request id of the FreshdeskError of a failure. *)
Theorem handler_request_id (cb : Callback) (response : Response.t)
    (body : JsValue) (req : Request.t) (id : string) :
  Response.headers response !! "x-request-id" = Some (HStr id) ->
  (forall (payload : JsValue) (extra : Extra.t),
     Called (CallSuccess payload extra) ∈
       (createResponseHandler cb None (FromTransport response) body req).1 ->
     Extra.requestId extra = id)
  ∧ (forall e : FreshdeskError.t,
       Called (CallError (Protocol e)) ∈
         (createResponseHandler cb None (FromTransport response) body req).1 ->
       FreshdeskError.requestId e = Some (HStr id)).
Proof.
  intros Hid. split.
  - intros payload extra Hin. apply handler_success_extra in Hin as ->.
    rewrite make_extra_response; simpl. by rewrite Hid.
  - intros e Hin. apply handler_error_requestId in Hin. congruence.
Qed.

Lemma handler_request_id_witness :
  Extra.requestId (make_extra (FromTransport Samples.ok_response)) = "abc123"
  ∧ (forall e : FreshdeskError.t,
       Called (CallError (Protocol e)) ∈
         (createResponseHandler Samples.quiet None
            (FromTransport Samples.missing_response) JNull Samples.get_ticket).1 ->
       FreshdeskError.requestId e = Some (HStr "abc123")).
Proof.
  split.
  - apply (proj1 (handler_request_id Samples.quiet Samples.ok_response
                    Samples.ticket Samples.get_ticket "abc123" eq_refl)
             Samples.ticket).
    simpl. left.
  - apply (proj2 (handler_request_id Samples.quiet Samples.missing_response
                    JNull Samples.get_ticket "abc123" eq_refl)).
Defined.

(** ** The request body *)

(** An index loop over a list is a left fold over its elements. *)
Lemma for_loop_foldl {S A} (d : A) (g : S -> A -> S) (l pre : list A) (s : S) :
  for_loop (length l) (length pre)
    (fun i s => g s (default d ((pre ++ l) !! i))) s =
  foldl g s l.
Proof.
  revert pre s. induction l as [| a l IH]; intros pre s; [done |].
  simpl. rewrite list_lookup_middle by done. simpl.
  replace (Datatypes.S (length pre)) with (length (pre ++ [a]))
    by (rewrite length_app; simpl; lia).
  rewrite (cons_middle a pre l), (assoc_L (++)). apply IH.
Qed.

Lemma for_loop_from_0 {S A} (d : A) (g : S -> A -> S) (l : list A) (s : S) :
  for_loop (length l) 0 (fun i s => g s (default d (l !! i))) s = foldl g s l.
Proof. exact (for_loop_foldl d g l [] s). Qed.

Lemma append_elements_spec key arr form :
  append_elements key arr form = form ++ map (pair (key +:+ "[]")) arr.
Proof.
  unfold append_elements.
  rewrite (for_loop_from_0 JUndefined
             (fun form v => form_append form (key +:+ "[]") v) arr form).
  revert form. induction arr as [| v arr IH]; intros form; simpl.
  - by rewrite app_nil_r.
  - rewrite IH. unfold form_append. by rewrite <- (assoc_L (++)).
Qed.

(** The form built from an object, key by key. *)
Lemma append_fields_spec fields form :
  append_fields (JObj fields) form =
  form ++ flat_map (fun key => field_parts (key, js_prop (JObj fields) key))
            fields.*1.
Proof.
  unfold append_fields.
  change (Object_keys (JObj fields)) with (fields.*1).
  rewrite (for_loop_from_0 "undefined"
             (fun form key =>
                match js_prop (JObj fields) key with
                | JArr arr => append_elements key arr form
                | value => form_append form key value
                end) (fields.*1) form).
  generalize (JObj fields) as data. generalize (fields.*1) as keys.
  intros keys data. revert form.
  induction keys as [| key keys IH]; intros form; simpl.
  - by rewrite app_nil_r.
  - rewrite IH, (assoc_L (++)). f_equal.
    unfold field_parts; simpl.
    destruct (js_prop data key); try done. apply append_elements_spec.
Qed.

Lemma lookup_field_not_key key fields :
  key ∉ fields.*1 -> lookup_field key fields = None.
Proof.
  induction fields as [| [k v] fields IH]; simpl; [done |].
  rewrite not_elem_of_cons. intros [Hne Hnotin].
  destruct (String.eqb_spec k key); [congruence | by apply IH].
Qed.

Lemma lookup_field_is_key key fields :
  key ∈ fields.*1 <-> is_Some (lookup_field key fields).
Proof.
  induction fields as [| [k v] fields IH]; simpl.
  - split; [intros H; by apply elem_of_nil in H | by intros [? ?]].
  - rewrite elem_of_cons. destruct (String.eqb_spec k key) as [-> | Hne].
    + split; [by eexists | by left].
    + rewrite <- IH. split; [intros [? | ?]; [congruence | done] | by right].
Qed.

(** In an object every key has the value it is listed with. *)
Lemma flat_map_fields (f : string * JsValue -> list (string * JsValue)) fields :
  NoDup fields.*1 ->
  flat_map (fun key => f (key, js_prop (JObj fields) key)) fields.*1 =
  flat_map f fields.
Proof.
  intros Hnodup. simpl.
  assert (forall done_ todo, done_ ++ todo = fields ->
            flat_map (fun key => f (key, default JUndefined (lookup_field key fields)))
              todo.*1 = flat_map f todo) as Hgen.
  { intros done_ todo. revert done_.
    induction todo as [| [k v] todo IH]; intros done_ Heq; [done |].
    simpl. f_equal.
    - f_equal. f_equal. subst fields.
      rewrite fmap_app, fmap_cons in Hnodup. simpl in Hnodup.
      apply NoDup_app in Hnodup as (_ & Hdisj & _).
      assert (k ∉ done_.*1) as Hfresh.
      { intros Hin. apply (Hdisj k Hin). by left. }
      clear -Hfresh. induction done_ as [| [k' v'] done_ IHd]; simpl.
      + by rewrite String.eqb_refl.
      + simpl in Hfresh. apply not_elem_of_cons in Hfresh as [Hne Hfresh].
        destruct (String.eqb_spec k' k); [congruence | by apply IHd].
    - apply (IH (done_ ++ [(k, v)])). by rewrite <- (assoc_L (++)). }
  by apply (Hgen []).
Qed.

Lemma build_options_object method auth qs fields :
  build_options method auth qs (JObj fields) =
  ret (match lookup_field "attachments" fields with
       | Some (JArr _) =>
           {| Options.method := method;
              Options.headers :=
                <["Content-Type" := HStr "multipart/form-data"]>
                  (<["Authorization" := HStr auth]>
                     {["Content-Type" := HStr "application/json"]});
              Options.query := qs;
              Options.body := Some (BodyForm (append_fields (JObj fields) [])) |}
       | _ =>
           {| Options.method := method;
              Options.headers :=
                <["Authorization" := HStr auth]>
                  {["Content-Type" := HStr "application/json"]};
              Options.query := qs;
              Options.body := Some (JsonText (JObj fields)) |}
       end).
Proof.
  unfold build_options; simpl. rewrite bind_ret. simpl.
  case_bool_decide as Hin.
  - apply lookup_field_is_key in Hin as [v Hv]. rewrite Hv. simpl. by destruct v.
  - rewrite lookup_field_not_key by done. done.
Qed.

(** The first event of a call whose URL parses is the HTTP call. *)
Lemma makeRequest_events rt cb method auth url qs data options path :
  build_options method auth qs data = ret options ->
  URL_pathname rt url = Some path ->
  exists rest,
    (makeRequest rt cb method auth url qs data).1 = Requested url options :: rest.
Proof.
  intros Hopts Hurl. unfold makeRequest.
  rewrite Hopts, bind_ret. unfold new_URL. rewrite Hurl, bind_ret.
  match goal with
  | |- context [try_catch ?m ?h] => destruct (try_catch_events m h) as [r1 ->]
  end.
  match goal with
  | |- context [bind ?m ?k] => destruct (bind_events m k) as [r2 ->]
  end.
  simpl. by eexists.
Qed.

(** C4: for every request body that is an object: if it has an
    [attachments] field that is a list, the request goes out with
    Content-Type multipart/form-data and a form in which every array field
    has one entry per element under its key suffixed with [[]] and every
    other field one entry under its own key; otherwise it goes out with
    Content-Type application/json and the JSON text of the body.  The
    Authorization header is set in both cases. *)
Theorem makeRequest_encoding (rt : Runtime) (cb : Callback)
    (method auth url : string) (qs : gmap string string)
    (fields : list (string * JsValue)) :
  NoDup fields.*1 ->
  exists options : Options.t,
    build_options method auth qs (JObj fields) = ret options
    ∧ (forall path, URL_pathname rt url = Some path ->
       exists rest,
         (makeRequest rt cb method auth url qs (JObj fields)).1 =
         Requested url options :: rest)
    ∧ Options.headers options !! "Authorization" = Some (HStr auth)
    ∧ match lookup_field "attachments" fields with
      | Some (JArr _) =>
          Options.headers options !! "Content-Type" = Some (HStr "multipart/form-data")
          ∧ Options.body options = Some (BodyForm (flat_map field_parts fields))
      | _ =>
          Options.headers options !! "Content-Type" = Some (HStr "application/json")
          ∧ Options.body options = Some (JsonText (JObj fields))
      end.
Proof.
  intros Hnodup. eexists. split; [apply build_options_object |].
  split.
  { intros path Hurl. eapply makeRequest_events; [apply build_options_object | done]. }
  destruct (lookup_field "attachments" fields) as [v |] eqn:Hatt;
    [destruct v |]; simpl; try by repeat split.
  split; [done |]. split; [done |].
  rewrite append_fields_spec. simpl. f_equal. f_equal.
  by apply (flat_map_fields field_parts).
Qed.

Lemma makeRequest_encoding_witness :
  let fields :=
    [("subject", JStr "Printer on fire"); ("tags", JArr [JStr "urgent"; JStr "hw"]);
     ("attachments", JArr [JFile "photo.png"])] in
  exists options : Options.t,
    build_options "POST" "Basic a2V5Olg=" ∅ (JObj fields) = ret options
    ∧ (forall path,
         URL_pathname (Samples.runtime (Resolved Samples.ok_response))
           "https://acme.freshdesk.com/api/v2/tickets" = Some path ->
       exists rest,
         (makeRequest (Samples.runtime (Resolved Samples.ok_response)) Samples.quiet
            "POST" "Basic a2V5Olg=" "https://acme.freshdesk.com/api/v2/tickets" ∅
            (JObj fields)).1 =
         Requested "https://acme.freshdesk.com/api/v2/tickets" options :: rest)
    ∧ Options.headers options !! "Authorization" = Some (HStr "Basic a2V5Olg=")
    ∧ Options.headers options !! "Content-Type" = Some (HStr "multipart/form-data")
    ∧ Options.body options =
      Some (BodyForm [("subject", JStr "Printer on fire");
                      ("tags[]", JStr "urgent"); ("tags[]", JStr "hw");
                      ("attachments[]", JFile "photo.png")]).
Proof.
  intros fields.
  apply (makeRequest_encoding (Samples.runtime (Resolved Samples.ok_response))
           Samples.quiet "POST" "Basic a2V5Olg="
           "https://acme.freshdesk.com/api/v2/tickets" ∅ fields).
  subst fields. compute_done.
Defined.

(** ** The transport's answer *)

(** A [try] block that starts with an event: the event is performed, and
    the rest of the block runs under the same handler. *)
Lemma try_catch_after_event {A} url options (a : A) (k : A -> M unit)
    (h : ErrVal -> M unit) :
  try_catch (bind ([Requested url options], Normal a) k) h =
  sent url options (try_catch (k a) h).
Proof.
  unfold sent, try_catch, bind; simpl.
  destruct (k a) as [t [[] | e]]; simpl; [done |]. by destruct (h e).
Qed.

Lemma try_catch_after_throw {A} url options (e : ErrVal) (k : A -> M unit)
    (h : ErrVal -> M unit) :
  try_catch (bind ([Requested url options], Throw e) k) h = sent url options (h e).
Proof. unfold sent, try_catch, bind; simpl. by destruct (h e). Qed.

Section Sent.
Context (rt : Runtime) (cb : Callback) (method auth url : string)
  (qs : gmap string string) (data : JsValue).
Context (options : Options.t) (path : string).
Hypothesis Hoptions : build_options method auth qs data = ret options.
Hypothesis Hpath : URL_pathname rt url = Some path.

(** When the transport resolves, the body is parsed and the handler runs,
    both inside the [try]. *)
Lemma makeRequest_resolved (response : Response.t) :
  request rt url options = Resolved response ->
  makeRequest rt cb method auth url qs data =
  sent url options
    (try_catch
       (let* parsed := await_json (Response.body response) in
        createResponseHandler cb None (FromTransport response) parsed
          (make_req options url path))
       (on_error cb (make_req options url path))).
Proof.
  intros Hres. unfold makeRequest.
  rewrite Hoptions, bind_ret. unfold new_URL. rewrite Hpath, bind_ret.
  unfold await_request. rewrite Hres.
  by rewrite try_catch_after_event.
Qed.

(** When the transport rejects, the [catch] block runs on its error. *)
Lemma makeRequest_rejected (error : JsError.t) :
  request rt url options = Rejected error ->
  makeRequest rt cb method auth url qs data =
  sent url options (on_error cb (make_req options url path) (Generic error)).
Proof.
  intros Hres. unfold makeRequest.
  rewrite Hoptions, bind_ret. unfold new_URL. rewrite Hpath, bind_ret.
  unfold await_request. rewrite Hres.
  by rewrite try_catch_after_throw.
Qed.
End Sent.

(** A call of the callback that returns leaves the [try] block normally. *)
Lemma try_catch_returns cb c (h : ErrVal -> M unit) :
  cb c = None -> try_catch (invoke cb c) h = invoke cb c.
Proof. intros Hreturns. unfold try_catch, invoke; simpl. by rewrite Hreturns. Qed.


(** An error without [response] and [request] goes to the callback as it is. *)
Lemma on_error_plain cb req name message :
  on_error cb req (Generic (JsError.plain name message)) =
  invoke cb (CallError (Generic (JsError.plain name message))).
Proof. reflexivity. Qed.

Lemma try_catch_throw {A} (e : ErrVal) (h : ErrVal -> M A) :
  try_catch (throw e) h = h e.
Proof. unfold try_catch, throw; simpl. by destruct (h e). Qed.

(** End to end: when the transport resolves with a 200 or 201 response
    whose body parses, and the callback returns, a call consists of the HTTP
    call and one callback call, with the parsed body. *)
Lemma makeRequest_success rt cb method auth url qs data options path
    (response : Response.t) (parsed : JsValue) :
  build_options method auth qs data = ret options ->
  URL_pathname rt url = Some path ->
  request rt url options = Resolved response ->
  Response.statusCode response = 200%Z ∨ Response.statusCode response = 201%Z ->
  await_json (Response.body response) = ret parsed ->
  cb (CallSuccess parsed (make_extra (FromTransport response))) = None ->
  makeRequest rt cb method auth url qs data =
  ([Requested url options;
    Called (CallSuccess parsed (make_extra (FromTransport response)))],
   Normal tt).
Proof.
  intros Hoptions Hpath Hres Hs Hparsed Hreturns.
  rewrite (makeRequest_resolved rt cb method auth url qs data options path
             Hoptions Hpath response Hres).
  rewrite Hparsed, bind_ret, handler_200_201, try_catch_returns by done.
  unfold sent, invoke; simpl. by rewrite Hreturns.
Qed.

(** A 200 response with the body [{id: 1}] yields the payload [{id: 1}],
    with the request id of the response in the metadata. *)
Example makeRequest_ok_ticket :
  makeRequest (Samples.runtime (Resolved Samples.ok_response)) Samples.quiet
    "GET" "Basic a2V5Olg=" Samples.ticket_url ∅ JUndefined =
  ([Requested Samples.ticket_url Samples.get_options;
    Called (CallSuccess (JObj [("id", JNum 1)])
              {| Extra.pageIsLast := true; Extra.requestId := "abc123";
                 Extra._headersLink := None |})],
   Normal tt).
Proof. reflexivity. Qed.

(** ** Response bodies that do not parse *)

(** Whatever the status, a response whose body stream does not parse is not
    classified: the rejection of [body.json()] is caught and goes to the
    callback as it is.  The test [response.body ? ... : null] only covers a
    response without a body object. *)
Lemma makeRequest_unparsable_body rt cb method auth url qs data options path
    (response : Response.t) (name message : string) :
  build_options method auth qs data = ret options ->
  URL_pathname rt url = Some path ->
  request rt url options = Resolved response ->
  Response.body response = Some (BadBody name message) ->
  makeRequest rt cb method auth url qs data =
  sent url options (invoke cb (CallError (Generic (JsError.plain name message)))).
Proof.
  intros Hoptions Hpath Hres Hbody.
  rewrite (makeRequest_resolved rt cb method auth url qs data options path
             Hoptions Hpath response Hres).
  rewrite Hbody. simpl.
  by rewrite bind_throw, try_catch_throw, on_error_plain.
Qed.

(** C7: the code at the failing input.  The 204 answer to a DELETE has an
    empty body; its body stream does not parse, and the callback gets the
    SyntaxError as a generic error.  The body is not taken to be null and
    the status is not looked at, although the handler, given null, would
    report the success of its 204 label. *)
Lemma makeRequest_empty_204_body_is_error :
  makeRequest (Samples.runtime (Resolved Samples.deleted_response)) Samples.quiet
    "DELETE" "Basic a2V5Olg=" Samples.ticket_url ∅ JUndefined =
  ([Requested Samples.ticket_url
      {| Options.method := "DELETE";
         Options.headers := Options.headers Samples.get_options;
         Options.query := ∅; Options.body := None |};
    Called (CallError (Generic (JsError.plain "SyntaxError"
                                  "Unexpected end of JSON input")))],
   Normal tt)
  ∧ createResponseHandler Samples.quiet None
      (FromTransport Samples.deleted_response) JNull Samples.get_ticket =
    invoke Samples.quiet
      (CallSuccess JNull
         {| Extra.pageIsLast := true; Extra.requestId := "abc123";
            Extra._headersLink := None |}).
Proof. split; reflexivity. Qed.

(** The same for a 200 answer whose body is an HTML page: an error, not a
    success with a null body. *)
Lemma makeRequest_malformed_body_is_error :
  let response := Samples.html_response in
  callbacks
    (makeRequest (Samples.runtime (Resolved response)) Samples.quiet
       "GET" "Basic a2V5Olg=" Samples.ticket_url ∅ JUndefined).1 =
  [CallError (Generic (JsError.plain "SyntaxError" "Unexpected token < in JSON at position 0"))]
  ∧ callbacks
      (makeRequest (Samples.runtime (Resolved response)) Samples.quiet
         "GET" "Basic a2V5Olg=" Samples.ticket_url ∅ JUndefined).1 ≠
    [CallSuccess JNull (make_extra (FromTransport response))].
Proof. split; [reflexivity | discriminate]. Qed.

(** ** Transport failures *)

(** What the [catch] block does with an error that carries a [request]
    whose body is absent or parses. *)
Lemma on_error_request cb req (e : JsError.t) (rq : ErrorRequest.t) :
  JsError.response e = None ->
  JsError.request e = Some rq ->
  (forall name message, ErrorRequest.body rq ≠ Some (BadBody name message)) ->
  on_error cb req (Generic e) =
  invoke cb (CallError (Generic (JsError.plain "Error" (JsError.message e)))).
Proof.
  intros Hresp Hreq Hbody. unfold on_error. rewrite Hresp, Hreq.
  destruct (ErrorRequest.body rq) as [[v | name message] |]; simpl.
  - by rewrite bind_ret.
  - by destruct (Hbody name message).
  - by rewrite bind_ret.
Qed.

(** C8, as stated, fails.  A transport error that carries a response is
    classified by the status of that response: here the callback gets a
    FreshdeskError, not a generic error.  And a call whose URL does not
    parse never calls the callback: the promise is rejected. *)
Lemma makeRequest_failure_not_generic_or_silent :
  (exists e : FreshdeskError.t,
     callbacks
       (makeRequest
          (Samples.runtime (Rejected (Samples.failed_with Samples.missing_response)))
          Samples.quiet "GET" "Basic a2V5Olg=" Samples.ticket_url ∅ JUndefined).1 =
     [CallError (Protocol e)])
  ∧ makeRequest (Samples.runtime (Resolved Samples.ok_response)) Samples.quiet
      "GET" "Basic a2V5Olg=" "tickets/1" ∅ JUndefined =
    ([], Throw (TypeError "Invalid URL")).
Proof. split; [by eexists | reflexivity]. Qed.

(** A transport error that carries a response whose body is absent or
    parses is handled as that response is: the handler classifies it by
    status, now inside the [catch] block. *)
Lemma makeRequest_error_with_response rt cb method auth url qs data options path
    (error : JsError.t) (response : Response.t) (parsed : JsValue) :
  build_options method auth qs data = ret options ->
  URL_pathname rt url = Some path ->
  request rt url options = Rejected error ->
  JsError.response error = Some response ->
  await_json (Response.body response) = ret parsed ->
  makeRequest rt cb method auth url qs data =
  sent url options
    (createResponseHandler cb None (FromTransport response) parsed
       (make_req options url path)).
Proof.
  intros Hoptions Hpath Hres Hresp Hparsed.
  rewrite (makeRequest_rejected rt cb method auth url qs data options path
             Hoptions Hpath error Hres).
  unfold on_error. by rewrite Hresp, Hparsed, bind_ret.
Qed.

(** C8, amended: for every call whose URL parses and whose transport
    fails with an error that carries no response, the callback is called
    exactly once, with a generic error: the transport's error itself, or a
    new Error with its message when the error carries a request (whose body
    is absent or parses); after the HTTP call nothing else happens, and
    nothing is thrown unless the callback throws. *)
Theorem makeRequest_transport_failure (rt : Runtime) (cb : Callback)
    (method auth url : string) (qs : gmap string string) (data : JsValue)
    (options : Options.t) (path : string) (error : JsError.t) :
  build_options method auth qs data = ret options ->
  URL_pathname rt url = Some path ->
  request rt url options = Rejected error ->
  JsError.response error = None ->
  (JsError.request error = None ->
   makeRequest rt cb method auth url qs data =
   sent url options (invoke cb (CallError (Generic error)))
   ∧ callbacks (makeRequest rt cb method auth url qs data).1 =
     [CallError (Generic error)])
  ∧ (forall rq : ErrorRequest.t,
       JsError.request error = Some rq ->
       (forall name message, ErrorRequest.body rq ≠ Some (BadBody name message)) ->
       makeRequest rt cb method auth url qs data =
       sent url options
         (invoke cb
            (CallError (Generic (JsError.plain "Error" (JsError.message error)))))
       ∧ callbacks (makeRequest rt cb method auth url qs data).1 =
         [CallError (Generic (JsError.plain "Error" (JsError.message error)))]).
Proof.
  intros Hoptions Hpath Hres Hresp.
  rewrite (makeRequest_rejected rt cb method auth url qs data options path
             Hoptions Hpath error Hres).
  split.
  - intros Hreq. unfold on_error. by rewrite Hresp, Hreq.
  - intros rq Hreq Hbody. by rewrite (on_error_request _ _ _ rq).
Qed.

Lemma makeRequest_transport_failure_witness :
  (makeRequest (Samples.runtime (Rejected Samples.connection_refused)) Samples.quiet
     "GET" "Basic a2V5Olg=" Samples.ticket_url ∅ JUndefined =
   sent Samples.ticket_url Samples.get_options
     (invoke Samples.quiet (CallError (Generic Samples.connection_refused)))
   ∧ callbacks
       (makeRequest (Samples.runtime (Rejected Samples.connection_refused))
          Samples.quiet "GET" "Basic a2V5Olg=" Samples.ticket_url ∅ JUndefined).1 =
     [CallError (Generic Samples.connection_refused)])
  ∧ (makeRequest (Samples.runtime (Rejected Samples.no_answer)) Samples.quiet
       "GET" "Basic a2V5Olg=" Samples.ticket_url ∅ JUndefined =
     sent Samples.ticket_url Samples.get_options
       (invoke Samples.quiet
          (CallError (Generic (JsError.plain "Error" "socket hang up"))))
     ∧ callbacks
         (makeRequest (Samples.runtime (Rejected Samples.no_answer))
            Samples.quiet "GET" "Basic a2V5Olg=" Samples.ticket_url ∅ JUndefined).1 =
       [CallError (Generic (JsError.plain "Error" "socket hang up"))]).
Proof.
  split.
  - apply (proj1 (makeRequest_transport_failure
                    (Samples.runtime (Rejected Samples.connection_refused))
                    Samples.quiet "GET" "Basic a2V5Olg=" Samples.ticket_url ∅
                    JUndefined _ "/api/v2/tickets/1" Samples.connection_refused
                    eq_refl eq_refl eq_refl eq_refl)).
    reflexivity.
  - apply (proj2 (makeRequest_transport_failure
                    (Samples.runtime (Rejected Samples.no_answer))
                    Samples.quiet "GET" "Basic a2V5Olg=" Samples.ticket_url ∅
                    JUndefined _ "/api/v2/tickets/1" Samples.no_answer
                    eq_refl eq_refl eq_refl eq_refl) (ErrorRequest.mk None));
      [reflexivity | discriminate].
Defined.

(** ** The default label with an empty body *)




(** ** What the [catch] block does not catch *)

(** A handler that throws inside the [catch] block is not caught: for a
    transport error that carries a response with a status of the default
    label and no body, the TypeError leaves [makeRequest] as a rejected
    promise and the callback is not called. *)
Lemma makeRequest_error_response_escapes :
  makeRequest
    (Samples.runtime (Rejected (Samples.failed_with Samples.server_error_response)))
    Samples.quiet "GET" "Basic a2V5Olg=" Samples.ticket_url ∅ JUndefined =
  ([Requested Samples.ticket_url Samples.get_options],
   Throw (TypeError "Cannot read properties of null (reading 'description')")).
Proof. reflexivity. Qed.

(** The callback runs inside the [try]: one that throws on a success is
    called a second time, with what it threw. *)
Lemma makeRequest_throwing_callback_called_twice :
  let boom := Generic (JsError.plain "Error" "render failed") in
  let cb : Callback :=
    fun c => match c with CallSuccess _ _ => Some boom | CallError _ => None end in
  callbacks
    (makeRequest (Samples.runtime (Resolved Samples.ok_response)) cb
       "GET" "Basic a2V5Olg=" Samples.ticket_url ∅ JUndefined).1 =
  [CallSuccess Samples.ticket (make_extra (FromTransport Samples.ok_response));
   CallError boom].
Proof. reflexivity. Qed.

(** The same holds for the parse of the body of [error.request]. *)
Lemma makeRequest_error_request_body_escapes :
  let error :=
    JsError.mk "Error" "socket hang up" None
      (Some (ErrorRequest.mk (Some (BadBody "SyntaxError" "Unexpected end of JSON input")))) in
  makeRequest (Samples.runtime (Rejected error)) Samples.quiet
    "GET" "Basic a2V5Olg=" Samples.ticket_url ∅ JUndefined =
  ([Requested Samples.ticket_url Samples.get_options],
   Throw (Generic (JsError.plain "SyntaxError" "Unexpected end of JSON input"))).
Proof. reflexivity. Qed.

(** The request body is an object, or absent: a truthy primitive makes the
    [in] test throw before anything is sent. *)
Lemma makeRequest_primitive_body_rejects :
  makeRequest (Samples.runtime (Resolved Samples.ok_response)) Samples.quiet
    "POST" "Basic a2V5Olg=" Samples.ticket_url ∅ (JNum 5) =
  ([], Throw (TypeError "Cannot use 'in' operator to search for 'attachments'")).
Proof. reflexivity. Qed.

(** * Further properties *)

(** ** Shapes of the computations *)

Lemma GetV_cases v key :
  (exists message, GetV v key = throw (TypeError message) ∧ isNil v = true)
  ∨ (GetV v key = ret (js_prop v key) ∧ isNil v = false).
Proof. destruct v; simpl; (by right) || (left; by eexists). Qed.

Lemma new_FreshdeskError_cases message data res req :
  (exists e, new_FreshdeskError message data res req = throw e)
  ∨ (exists e, new_FreshdeskError message data res req = ret e).
Proof.
  unfold new_FreshdeskError. destruct (arg_headers res); [right | left]; by eexists.
Qed.

Lemma await_json_cases (b : option BodyStream) :
  (exists name message,
     b = Some (BadBody name message)
     ∧ await_json b = throw (Generic (JsError.plain name message)))
  ∨ (exists parsed, await_json b = ret parsed).
Proof.
  destruct b as [[v | name message] |]; simpl.
  - right. by eexists.
  - left. by do 2 eexists.
  - right. by eexists.
Qed.

(** Whatever it is given, the handler throws before calling the callback
    or calls it once. *)
Lemma handler_one_call cb error res body req :
  one_call_or_throw cb (createResponseHandler cb error res body req).
Proof.
  unfold createResponseHandler. destruct error as [e |]; [right; by eexists |].
  destruct (status_is res 200 || status_is res 201); [right; by eexists |].
  destruct (status_is res 204); [right; by eexists |].
  destruct (status_is res 404).
  - destruct (new_FreshdeskError_cases (JStr not_found_message) body res req)
      as [[e ->] | [e ->]].
    + left. by eexists.
    + rewrite bind_ret. right. by eexists.
  - destruct (GetV_cases body "description") as [(message & -> & _) | [-> _]].
    + left. by eexists.
    + rewrite bind_ret.
      destruct (new_FreshdeskError_cases (js_prop body "description") body res req)
        as [[e ->] | [e ->]].
      * left. by eexists.
      * rewrite bind_ret. right. by eexists.
Qed.

Lemma parse_then_handle_one_call cb b error res req :
  one_call_or_throw cb
    (let* parsed := await_json b in createResponseHandler cb error res parsed req).
Proof.
  destruct (await_json_cases b) as [(name & message & _ & ->) | [parsed ->]].
  - left. by eexists.
  - rewrite bind_ret. apply handler_one_call.
Qed.

(** So does the [catch] block. *)
Lemma on_error_one_call cb req error :
  one_call_or_throw cb (on_error cb req error).
Proof.
  unfold on_error. destruct error as [e | e]; [| apply handler_one_call].
  destruct (JsError.response e) as [response |];
    [apply parse_then_handle_one_call |].
  destruct (JsError.request e) as [rq |];
    [apply parse_then_handle_one_call | apply handler_one_call].
Qed.

Lemma try_catch_rethrown cb c x (h : ErrVal -> M unit) :
  cb c = Some x ->
  try_catch (invoke cb c) h = (Called c :: (h x).1, (h x).2).
Proof.
  intros Hthrows. unfold try_catch, invoke; simpl. rewrite Hthrows.
  by destruct (h x).
Qed.

Lemma try_catch_outcome cb (m : M unit) (h : ErrVal -> M unit) :
  one_call_or_throw cb m ->
  (forall e, one_call_or_throw cb (h e)) ->
  try_outcome cb (try_catch m h).
Proof.
  intros [[e ->] | [c ->]] Hh.
  - rewrite try_catch_throw. by left.
  - destruct (cb c) as [x |] eqn:Hc.
    + right. exists c, x, (h x). by rewrite (try_catch_rethrown cb c x).
    + rewrite try_catch_returns by done. left; right. by eexists.
Qed.

Lemma HasProperty_cases key v :
  (exists message, HasProperty key v = throw (TypeError message) ∧ is_object v = false)
  ∨ (exists b, HasProperty key v = ret b ∧ is_object v = true).
Proof. destruct v; simpl; (right; by eexists) || (left; by eexists). Qed.

Lemma build_options_cases method auth qs data :
  (exists message,
     build_options method auth qs data = throw (TypeError message)
     ∧ ToBoolean data = true ∧ is_object data = false)
  ∨ (exists options,
       build_options method auth qs data = ret options
       ∧ (ToBoolean data = false ∨ is_object data = true)).
Proof.
  unfold build_options. destruct (ToBoolean data) eqn:Htruthy.
  - destruct (HasProperty_cases "attachments" data)
      as [(message & -> & Hobj) | (b & -> & Hobj)].
    + left. by eexists.
    + rewrite bind_ret. right.
      destruct (b && isArray (js_prop data "attachments")); eexists; by eauto.
  - right. eexists. by eauto.
Qed.

(** Every run of [makeRequest]: it throws before anything is sent, or the
    HTTP call is made and the rest is the outcome of the [try] block. *)
Lemma makeRequest_shape rt cb method auth url qs data :
  (exists e, makeRequest rt cb method auth url qs data = throw e)
  ∨ (exists options path m,
       build_options method auth qs data = ret options
       ∧ URL_pathname rt url = Some path
       ∧ try_outcome cb m
       ∧ makeRequest rt cb method auth url qs data = sent url options m).
Proof.
  destruct (build_options_cases method auth qs data)
    as [(message & Hthrow & _) | (options & Hoptions & _)].
  - left. exists (TypeError message). unfold makeRequest. by rewrite Hthrow.
  - destruct (URL_pathname rt url) as [path |] eqn:Hpath.
    + right. exists options, path.
      destruct (request rt url options) as [response | error] eqn:Hres.
      * eexists. split; [done |]. split; [done |]. split;
          [| by apply makeRequest_resolved].
        apply try_catch_outcome;
          [apply parse_then_handle_one_call | apply on_error_one_call].
      * eexists. split; [done |]. split; [done |]. split;
          [| by apply makeRequest_rejected].
        left. apply on_error_one_call.
    + left. exists (TypeError "Invalid URL"). unfold makeRequest.
      rewrite Hoptions, bind_ret. unfold new_URL. by rewrite Hpath.
Qed.

(** The handler on a response of the transport: it throws, before any call
    of the callback, exactly on a status of the default label with a nil
    body; otherwise it is one call of the callback. *)
Lemma handler_response_cases cb (response : Response.t) body req :
  (default_branch (Response.statusCode response) ∧ isNil body = true
   ∧ exists message,
       createResponseHandler cb None (FromTransport response) body req =
       throw (TypeError message))
  ∨ (exists c,
       createResponseHandler cb None (FromTransport response) body req =
       invoke cb c
       ∧ (default_branch (Response.statusCode response) -> isNil body = false)).
Proof.
  destruct (status_cases (Response.statusCode response))
    as [Hs | [Hs | [Hs | [Hs | Hs]]]].
  - right. eexists. split; [apply handler_200_201; by left |].
    intros (? & _). congruence.
  - right. eexists. split; [apply handler_200_201; by right |].
    intros (_ & ? & _). congruence.
  - right. eexists. split; [by apply handler_204 |].
    intros (_ & _ & ? & _). congruence.
  - right. eexists. split; [by apply handler_404 |].
    intros (_ & _ & _ & ?). congruence.
  - rewrite handler_default by done.
    destruct (GetV_cases body "description") as [(message & -> & Hnil) | [-> Hnil]].
    + left. split; [done |]. split; [done |]. by eexists.
    + right. rewrite bind_ret, new_FreshdeskError_response, bind_ret.
      eexists. by split.
Qed.

Lemma not_success_status (s : Z) :
  s ≠ 200%Z -> s ≠ 201%Z -> s ≠ 204%Z -> s ∉ [200; 201; 204]%Z.
Proof.
  intros H200 H201 H204. rewrite !not_elem_of_cons. repeat split; try done.
  apply not_elem_of_nil.
Qed.

Lemma invoke_inj cb c c' : invoke cb c = invoke cb c' -> c = c'.
Proof. unfold invoke. intros Heq. by simplify_eq. Qed.

Lemma throw_not_invoke cb (e : ErrVal) c : @throw unit e ≠ invoke cb c.
Proof. unfold throw, invoke. intros Heq. by simplify_eq. Qed.

(** ** The handler, over all statuses *)

(** X2: on a response of the transport the handler makes no call of the
    callback exactly when the status goes to the default label and the
    body is nil, and then it throws a TypeError; in every other case it
    makes exactly one call and nothing else. *)
Theorem handler_silent_iff_nil_body (cb : Callback) (response : Response.t)
    (body : JsValue) (req : Request.t) :
  let run := createResponseHandler cb None (FromTransport response) body req in
  (run.1 = [] <->
   default_branch (Response.statusCode response) ∧ isNil body = true)
  ∧ (run.1 = [] -> exists message, run = throw (TypeError message))
  ∧ (run.1 ≠ [] -> exists c, run = invoke cb c).
Proof.
  cbv zeta.
  destruct (handler_response_cases cb response body req)
    as [(Hs & Hnil & message & ->) | (c & -> & Hcalled)].
  - split; [done |]. split; [by eexists | done].
  - split; [| split].
    + split; [done |]. intros [Hs Hnil]. rewrite Hcalled in Hnil; done.
    + done.
    + by eexists.
Qed.

(** X3: every FreshdeskError that the handler passes to the callback is
    named FreshdeskError, has a truthy message (the not-found text for a
    404, else [body.description] when that is truthy, else the default
    text), carries the body it was given and a status that is none of 200,
    201 and 204. *)
Theorem handler_error_well_formed (cb : Callback) (response : Response.t)
    (body : JsValue) (req : Request.t) (e : FreshdeskError.t) :
  Called (CallError (Protocol e)) ∈
    (createResponseHandler cb None (FromTransport response) body req).1 ->
  FreshdeskError.name e = "FreshdeskError"
  ∧ ToBoolean (FreshdeskError.message e) = true
  ∧ FreshdeskError.message e =
      (if (Response.statusCode response =? 404)%Z then JStr not_found_message
       else if ToBoolean (js_prop body "description")
            then js_prop body "description"
            else JStr default_message)
  ∧ FreshdeskError.data e = body
  ∧ FreshdeskError.status e = Some (Response.statusCode response)
  ∧ Response.statusCode response ∉ [200; 201; 204]%Z.
Proof.
  destruct (status_cases (Response.statusCode response))
    as [Hs | [Hs | [Hs | [Hs | Hs]]]].
  - rewrite handler_200_201 by (by left). intros Hin.
    apply list_elem_of_singleton in Hin. by simplify_eq.
  - rewrite handler_200_201 by (by right). intros Hin.
    apply list_elem_of_singleton in Hin. by simplify_eq.
  - rewrite handler_204 by done. intros Hin.
    apply list_elem_of_singleton in Hin. by simplify_eq.
  - rewrite handler_404 by done. intros Hin.
    apply list_elem_of_singleton in Hin. simplify_eq. rewrite Hs. simpl.
    repeat split. by apply not_success_status.
  - rewrite handler_default by done.
    destruct (GetV_cases body "description") as [(message & -> & _) | [-> _]].
    + intros Hin. by apply elem_of_nil in Hin.
    + rewrite bind_ret, new_FreshdeskError_response, bind_ret. intros Hin.
      apply list_elem_of_singleton in Hin. simplify_eq. simpl.
      destruct Hs as (H200 & H201 & H204 & H404).
      apply Z.eqb_neq in H404 as H404'. rewrite H404'.
      repeat split; [| by apply not_success_status].
      by destruct (ToBoolean (js_prop body "description")) eqn:Hd.
Qed.

Lemma handler_error_well_formed_witness :
  let e :=
    {| FreshdeskError.name := "FreshdeskError";
       FreshdeskError.message := JStr "Validation failed";
       FreshdeskError.data := Samples.conflict_body;
       FreshdeskError.status := Some 409%Z;
       FreshdeskError.apiTarget := "GET /api/v2/tickets/1";
       FreshdeskError.requestId := Some (HStr "abc123") |} in
  FreshdeskError.name e = "FreshdeskError"
  ∧ ToBoolean (FreshdeskError.message e) = true
  ∧ FreshdeskError.message e = JStr "Validation failed"
  ∧ FreshdeskError.data e = Samples.conflict_body
  ∧ FreshdeskError.status e = Some 409%Z
  ∧ 409%Z ∉ [200; 201; 204]%Z.
Proof.
  intros e.
  apply (handler_error_well_formed Samples.quiet Samples.conflict_response
           Samples.conflict_body Samples.get_ticket e).
  simpl. left.
Defined.

(** X4: in the metadata of every success, [_headersLink] holds the Link
    header exactly when the page is not the last one, so that a caller who
    sees [pageIsLast = false] finds the link there; and the request id is
    the empty string when the response has no x-request-id header. *)
Theorem handler_metadata_link (cb : Callback) (response : Response.t)
    (body payload : JsValue) (req : Request.t) (extra : Extra.t) :
  Called (CallSuccess payload extra) ∈
    (createResponseHandler cb None (FromTransport response) body req).1 ->
  (Extra.pageIsLast extra = false <-> is_Some (Extra._headersLink extra))
  ∧ (forall link : string,
       Extra._headersLink extra = Some link <->
       Response.headers response !! "link" = Some (HStr link))
  ∧ (Response.headers response !! "x-request-id" = None ->
     Extra.requestId extra = "").
Proof.
  intros Hin. apply handler_success_extra in Hin as ->.
  rewrite make_extra_response; simpl. split; [| split].
  - rewrite bool_decide_eq_false.
    destruct (typeof_string _) as [link |].
    + split; [by eexists | done].
    + split; [done | by intros [? ?]].
  - intros link. apply typeof_string_Some.
  - by intros ->.
Qed.

Lemma handler_metadata_link_witness :
  let response :=
    Response.mk 200 Samples.next_link (Some (JsonBody Samples.ticket)) in
  let extra := make_extra (FromTransport response) in
  (Extra.pageIsLast extra = false <-> is_Some (Extra._headersLink extra))
  ∧ (forall link : string,
       Extra._headersLink extra = Some link <->
       Response.headers response !! "link" = Some (HStr link))
  ∧ (Response.headers response !! "x-request-id" = None ->
     Extra.requestId extra = "").
Proof.
  intros response extra.
  apply (handler_metadata_link Samples.quiet response Samples.ticket
           Samples.ticket Samples.get_ticket extra).
  simpl. left.
Defined.

(** ** The options of a request *)

(** X5: whatever the body, the options that are built carry the method
    and the query as given, exactly the two headers Content-Type and
    Authorization, and the credential as Authorization; no body is sent
    exactly when [data] is falsy; and the Content-Type is
    multipart/form-data with a form as body, or application/json with the
    JSON text of [data] (or nothing) as body. *)
Theorem build_options_invariant (method auth : string) (qs : gmap string string)
    (data : JsValue) (options : Options.t) :
  build_options method auth qs data = ret options ->
  Options.method options = method
  ∧ Options.query options = qs
  ∧ dom (Options.headers options) = ({["Content-Type"; "Authorization"]} : gset string)
  ∧ Options.headers options !! "Authorization" = Some (HStr auth)
  ∧ (Options.body options = None <-> ToBoolean data = false)
  ∧ ((Options.headers options !! "Content-Type" = Some (HStr "multipart/form-data")
      ∧ exists entries, Options.body options = Some (BodyForm entries))
     ∨ (Options.headers options !! "Content-Type" = Some (HStr "application/json")
        ∧ (Options.body options = None
           ∨ Options.body options = Some (JsonText data)))).
Proof.
  unfold build_options. destruct (ToBoolean data) eqn:Htruthy.
  - destruct (HasProperty_cases "attachments" data)
      as [(message & -> & _) | (b & -> & _)]; [done |].
    rewrite bind_ret.
    destruct (b && isArray (js_prop data "attachments")); intros Heq;
      unfold ret in Heq; simplify_eq; simpl.
    + repeat split; try done. left. split; [done |]. by eexists.
    + repeat split; try done. right. split; [done |]. by right.
  - intros Heq. unfold ret in Heq. simplify_eq. simpl.
    repeat split; try done. right. split; [done |]. by left.
Qed.

Lemma build_options_invariant_witness :
  let data := JArr [JNum 1; JNum 2] in
  exists options : Options.t,
    Options.method options = "PUT"
    ∧ Options.query options = {["page" := "2"]}
    ∧ dom (Options.headers options) = ({["Content-Type"; "Authorization"]} : gset string)
    ∧ Options.headers options !! "Authorization" = Some (HStr "Basic a2V5Olg=")
    ∧ (Options.body options = None <-> ToBoolean data = false)
    ∧ ((Options.headers options !! "Content-Type" = Some (HStr "multipart/form-data")
        ∧ exists entries, Options.body options = Some (BodyForm entries))
       ∨ (Options.headers options !! "Content-Type" = Some (HStr "application/json")
          ∧ (Options.body options = None
             ∨ Options.body options = Some (JsonText data)))).
Proof.
  intros data. eexists.
  apply (build_options_invariant "PUT" "Basic a2V5Olg=" {["page" := "2"]} data).
  reflexivity.
Defined.

(** ** Every run of [makeRequest] *)

(** X6: when the URL does not parse, or the body is a truthy primitive (on
    which the [in] test throws), nothing is sent and the callback is not
    called: the call is a promise rejected with a TypeError. *)
Theorem makeRequest_not_sent (rt : Runtime) (cb : Callback)
    (method auth url : string) (qs : gmap string string) (data : JsValue) :
  URL_pathname rt url = None ∨ (ToBoolean data = true ∧ is_object data = false) ->
  exists message : string,
    makeRequest rt cb method auth url qs data = ([], Throw (TypeError message)).
Proof.
  intros Hbad.
  destruct (build_options_cases method auth qs data)
    as [(message & Hthrow & _) | (options & Hoptions & Hdata)].
  - exists message. unfold makeRequest. by rewrite Hthrow.
  - destruct Hbad as [Hurl | [Htruthy Hobj]].
    + exists "Invalid URL". unfold makeRequest.
      rewrite Hoptions, bind_ret. unfold new_URL. by rewrite Hurl.
    + destruct Hdata; congruence.
Qed.

Lemma makeRequest_not_sent_witness :
  (exists message : string,
     makeRequest (Samples.runtime (Resolved Samples.ok_response)) Samples.quiet
       "GET" "Basic a2V5Olg=" "acme.freshdesk.com/api/v2/tickets" ∅ JUndefined =
     ([], Throw (TypeError message)))
  ∧ (exists message : string,
       makeRequest (Samples.runtime (Resolved Samples.ok_response)) Samples.quiet
         "POST" "Basic a2V5Olg=" Samples.ticket_url ∅ (JStr "subject=x") =
       ([], Throw (TypeError message))).
Proof.
  split.
  - apply makeRequest_not_sent. left. reflexivity.
  - apply makeRequest_not_sent. right. split; reflexivity.
Defined.

(** X7: no retry and no second request.  A run that does not throw before
    sending makes exactly one HTTP call, first, to the given URL with the
    options that were built; all that follows are calls of the callback, at
    most two, and two only when the callback threw on the first. *)
Theorem makeRequest_single_request (rt : Runtime) (cb : Callback)
    (method auth url : string) (qs : gmap string string) (data : JsValue) :
  (exists e, makeRequest rt cb method auth url qs data = ([], Throw e))
  ∨ (exists (options : Options.t) (calls : list CbCall),
       build_options method auth qs data = ret options
       ∧ (makeRequest rt cb method auth url qs data).1 =
         Requested url options :: map Called calls
       ∧ (calls = []
          ∨ (exists c, calls = [c])
          ∨ (exists c1 c2 x, calls = [c1; c2] ∧ cb c1 = Some x))).
Proof.
  destruct (makeRequest_shape rt cb method auth url qs data)
    as [[e ->] | (options & path & m & Hoptions & _ & Hm & ->)].
  - left. by eexists.
  - right. exists options.
    destruct Hm as [[[e ->] | [c ->]]
                   | (c & x & m' & Hthrows & [[e ->] | [c' ->]] & ->)].
    + exists []. by auto.
    + exists [c]. split; [done |]. split; [done |]. right; left. by eexists.
    + exists [c]. split; [done |]. split; [done |]. right; left. by eexists.
    + exists [c; c']. split; [done |]. split; [done |]. right; right.
      by do 3 eexists.
Qed.

(** X8: told once.  With a callback that does not throw, every run goes
    one of two ways: the HTTP call is made, the callback is called exactly
    once and the code of [makeRequest] throws nothing, the run ending with
    the return of that call; or the callback is not called at all and the
    promise is rejected with what the code of [makeRequest] threw. *)
Theorem makeRequest_told_once (rt : Runtime) (cb : Callback)
    (method auth url : string) (qs : gmap string string) (data : JsValue) :
  (forall c, cb c = None) ->
  (exists options c,
     makeRequest rt cb method auth url qs data =
     sent url options (invoke cb c))
  ∨ (exists e, callbacks (makeRequest rt cb method auth url qs data).1 = []
               ∧ (makeRequest rt cb method auth url qs data).2 = Throw e).
Proof.
  intros Hreturns.
  destruct (makeRequest_shape rt cb method auth url qs data)
    as [[e ->] | (options & path & m & _ & _ & Hm & ->)].
  - right. by eexists.
  - destruct Hm as [[[e ->] | [c ->]] | (c & x & _ & Hthrows & _)].
    + right. by eexists.
    + left. by exists options, c.
    + rewrite Hreturns in Hthrows. done.
Qed.

Lemma makeRequest_told_once_witness :
  (exists options c,
     makeRequest (Samples.runtime (Resolved Samples.conflict_response))
       Samples.quiet "POST" "Basic a2V5Olg=" Samples.ticket_url ∅ Samples.ticket =
     sent Samples.ticket_url options (invoke Samples.quiet c))
  ∨ (exists e,
       callbacks
         (makeRequest (Samples.runtime (Resolved Samples.conflict_response))
            Samples.quiet "POST" "Basic a2V5Olg=" Samples.ticket_url ∅
            Samples.ticket).1 = []
       ∧ (makeRequest (Samples.runtime (Resolved Samples.conflict_response))
            Samples.quiet "POST" "Basic a2V5Olg=" Samples.ticket_url ∅
            Samples.ticket).2 = Throw e).
Proof.
  apply (makeRequest_told_once
           (Samples.runtime (Resolved Samples.conflict_response)) Samples.quiet
           "POST" "Basic a2V5Olg=" Samples.ticket_url ∅ Samples.ticket).
  reflexivity.
Defined.

(** ** When the transport resolves *)

(** With a callback that returns, a resolved call is the HTTP call and one
    call of the callback: with the parse error of the body, with what the
    handler passes, or with the TypeError of the handler. *)
Lemma makeRequest_resolved_call rt cb method auth url qs data options path
    (response : Response.t) :
  build_options method auth qs data = ret options ->
  URL_pathname rt url = Some path ->
  request rt url options = Resolved response ->
  (forall c, cb c = None) ->
  exists c,
    makeRequest rt cb method auth url qs data =
    ([Requested url options; Called c], Normal tt)
    ∧ ((exists name message,
          Response.body response = Some (BadBody name message)
          ∧ c = CallError (Generic (JsError.plain name message)))
       ∨ (exists parsed,
            await_json (Response.body response) = ret parsed
            ∧ (createResponseHandler cb None (FromTransport response) parsed
                 (make_req options url path) = invoke cb c
               ∨ (default_branch (Response.statusCode response)
                  ∧ isNil parsed = true
                  ∧ exists message, c = CallError (TypeError message))))).
Proof.
  intros Hoptions Hpath Hres Hreturns.
  rewrite (makeRequest_resolved rt cb method auth url qs data options path
             Hoptions Hpath response Hres).
  assert (forall c, sent url options (invoke cb c) =
                    ([Requested url options; Called c], Normal tt)) as Hsent.
  { intros c. unfold sent, invoke; simpl. by rewrite Hreturns. }
  destruct (await_json_cases (Response.body response))
    as [(name & message & Hbody & ->) | [parsed Hparsed]].
  - rewrite bind_throw, try_catch_throw, on_error_plain.
    eexists. split; [apply Hsent |]. left. by do 2 eexists.
  - rewrite Hparsed, bind_ret.
    destruct (handler_response_cases cb response parsed (make_req options url path))
      as [(Hs & Hnil & message & Hthrow) | (c & Hcall & _)].
    + rewrite Hthrow, try_catch_throw.
      change (on_error cb (make_req options url path) (TypeError message))
        with (invoke cb (CallError (TypeError message))).
      eexists. split; [apply Hsent |]. right. exists parsed. split; [done |].
      right. split; [done |]. split; [done |]. by eexists.
    + rewrite Hcall, try_catch_returns by done.
      exists c. split; [apply Hsent |]. right. exists parsed. split; [done |].
      by left.
Qed.

Lemma ret_inj {A} (a b : A) : ret a = ret b -> a = b.
Proof. unfold ret. intros Heq. by simplify_eq. Qed.

(** X9: whenever the transport resolves with a response, whatever its
    status, headers and body, and the callback does not throw, the code of
    [makeRequest] throws nothing: the run is the HTTP call followed by
    exactly one call of the callback, and it ends with the return of that
    call.  The call is a success exactly when the status is 200, 201 or 204
    and the body is absent or parses. *)
Theorem makeRequest_resolved_once (rt : Runtime) (cb : Callback)
    (method auth url : string) (qs : gmap string string) (data : JsValue)
    (options : Options.t) (path : string) (response : Response.t) :
  build_options method auth qs data = ret options ->
  URL_pathname rt url = Some path ->
  request rt url options = Resolved response ->
  (forall c, cb c = None) ->
  exists c : CbCall,
    makeRequest rt cb method auth url qs data = sent url options (invoke cb c)
    ∧ ((exists payload extra, c = CallSuccess payload extra) <->
       Response.statusCode response ∈ [200; 201; 204]%Z
       ∧ exists parsed, await_json (Response.body response) = ret parsed).
Proof.
  intros Hoptions Hpath Hres Hreturns.
  destruct (makeRequest_resolved_call rt cb method auth url qs data options path
              response Hoptions Hpath Hres Hreturns) as (c & Hrun & Hc).
  exists c. split.
  { rewrite Hrun. unfold sent, invoke; simpl. by rewrite Hreturns. }
  destruct Hc as [(name & message & Hbody & ->)
                 | (parsed & Hparsed & [Hcall | (Hs & _ & message & ->)])].
  - split; [by intros (? & ? & ?) |].
    intros (_ & parsed & Hparsed). rewrite Hbody in Hparsed. done.
  - pose proof (handler_events cb response parsed (make_req options url path))
      as Hev. cbv zeta in Hev. rewrite Hcall in Hev. simpl in Hev.
    destruct Hev as [[Hs Hev] | [[Hs Hev] | [Hs Hev]]].
    + split; [| intros _; simplify_eq; by do 2 eexists].
      intros _. split; [| by eexists].
      destruct Hs as [-> | ->]; set_solver.
    + split; [| intros _; simplify_eq; by do 2 eexists].
      intros _. split; [| by eexists]. rewrite Hs. set_solver.
    + split.
      * intros (payload & extra & ->).
        destruct Hev as [Hev | [e Hev]]; by simplify_eq.
      * intros (Hin & _). exfalso.
        destruct Hs as [Hs | (H200 & H201 & H204 & _)];
          [| by apply (not_success_status _ H200 H201 H204)].
        rewrite Hs in Hin. by apply (not_success_status 404) in Hin.
  - split; [by intros (? & ? & ?) |].
    intros (Hin & _). destruct Hs as (H200 & H201 & H204 & _).
    by apply (not_success_status _ H200 H201 H204) in Hin.
Qed.

Lemma makeRequest_resolved_once_witness :
  exists c : CbCall,
    makeRequest (Samples.runtime (Resolved Samples.unauthorized_response))
      Samples.quiet "GET" "Basic a2V5Olg=" Samples.ticket_url ∅ JUndefined =
    sent Samples.ticket_url Samples.get_options (invoke Samples.quiet c)
    ∧ ((exists payload extra, c = CallSuccess payload extra) <->
       401%Z ∈ [200; 201; 204]%Z
       ∧ exists parsed,
           await_json (Response.body Samples.unauthorized_response) = ret parsed).
Proof.
  apply (makeRequest_resolved_once
           (Samples.runtime (Resolved Samples.unauthorized_response))
           Samples.quiet "GET" "Basic a2V5Olg=" Samples.ticket_url ∅ JUndefined
           Samples.get_options "/api/v2/tickets/1" Samples.unauthorized_response);
    reflexivity.
Defined.

Lemma build_options_method method auth qs data options :
  build_options method auth qs data = ret options ->
  Options.method options = method.
Proof.
  unfold build_options. destruct (ToBoolean data).
  - destruct (HasProperty_cases "attachments" data)
      as [(message & -> & _) | (b & -> & _)]; [done |].
    rewrite bind_ret.
    destruct (b && isArray (js_prop data "attachments")); intros Heq;
      apply ret_inj in Heq; by subst.
  - intros Heq. apply ret_inj in Heq. by subst.
Qed.

(** The target of a FreshdeskError is the method and the path of the
    request the handler was given. *)
Lemma handler_error_apiTarget cb (response : Response.t) body req e :
  Called (CallError (Protocol e)) ∈
    (createResponseHandler cb None (FromTransport response) body req).1 ->
  FreshdeskError.apiTarget e = Request.method req +:+ " " +:+ Request.path req
  ∧ FreshdeskError.status e = Some (Response.statusCode response).
Proof.
  destruct (status_cases (Response.statusCode response))
    as [Hs | [Hs | [Hs | [Hs | Hs]]]].
  - rewrite handler_200_201 by (by left). intros Hin.
    apply list_elem_of_singleton in Hin. by simplify_eq.
  - rewrite handler_200_201 by (by right). intros Hin.
    apply list_elem_of_singleton in Hin. by simplify_eq.
  - rewrite handler_204 by done. intros Hin.
    apply list_elem_of_singleton in Hin. by simplify_eq.
  - rewrite handler_404 by done. intros Hin.
    apply list_elem_of_singleton in Hin. simplify_eq. by rewrite Hs.
  - rewrite handler_default by done.
    destruct (GetV_cases body "description") as [(message & -> & _) | [-> _]].
    + intros Hin. by apply elem_of_nil in Hin.
    + rewrite bind_ret, new_FreshdeskError_response, bind_ret. intros Hin.
      apply list_elem_of_singleton in Hin. by simplify_eq.
Qed.

(** X10: end to end, a FreshdeskError that reaches a returning callback
    after the transport resolved names the call it belongs to: its target
    is the method given to [makeRequest], a space, and the pathname of the
    URL; its status and request id are those of the response. *)
Theorem makeRequest_error_names_call (rt : Runtime) (cb : Callback)
    (method auth url : string) (qs : gmap string string) (data : JsValue)
    (options : Options.t) (path : string) (response : Response.t)
    (e : FreshdeskError.t) :
  build_options method auth qs data = ret options ->
  URL_pathname rt url = Some path ->
  request rt url options = Resolved response ->
  (forall c, cb c = None) ->
  Called (CallError (Protocol e)) ∈ (makeRequest rt cb method auth url qs data).1 ->
  FreshdeskError.apiTarget e = method +:+ " " +:+ path
  ∧ FreshdeskError.status e = Some (Response.statusCode response)
  ∧ FreshdeskError.requestId e = Response.headers response !! "x-request-id".
Proof.
  intros Hoptions Hpath Hres Hreturns Hin.
  destruct (makeRequest_resolved_call rt cb method auth url qs data options path
              response Hoptions Hpath Hres Hreturns) as (c & Hrun & Hc).
  rewrite Hrun in Hin. simpl in Hin.
  apply elem_of_cons in Hin as [Hin | Hin]; [done |].
  apply list_elem_of_singleton in Hin. simplify_eq.
  destruct Hc as [(name & message & _ & Hc)
                 | (parsed & _ & [Hcall | (_ & _ & message & Hc)])];
    [done | | done].
  assert (Called (CallError (Protocol e)) ∈
            (createResponseHandler cb None (FromTransport response) parsed
               (make_req options url path)).1) as Hcalled.
  { rewrite Hcall. simpl. left. }
  destruct (handler_error_apiTarget _ _ _ _ _ Hcalled) as [Htarget Hstatus].
  apply handler_error_requestId in Hcalled.
  rewrite Htarget. unfold Request.method; simpl.
  by rewrite (build_options_method _ _ _ _ _ Hoptions).
Qed.

Lemma makeRequest_error_names_call_witness :
  let e :=
    {| FreshdeskError.name := "FreshdeskError";
       FreshdeskError.message := JStr "Validation failed";
       FreshdeskError.data := Samples.conflict_body;
       FreshdeskError.status := Some 409%Z;
       FreshdeskError.apiTarget := "PUT /api/v2/tickets/1";
       FreshdeskError.requestId := Some (HStr "abc123") |} in
  FreshdeskError.apiTarget e = "PUT /api/v2/tickets/1"
  ∧ FreshdeskError.status e = Some 409%Z
  ∧ FreshdeskError.requestId e = Some (HStr "abc123").
Proof.
  intros e.
  apply (makeRequest_error_names_call
           (Samples.runtime (Resolved Samples.conflict_response)) Samples.quiet
           "PUT" "Basic a2V5Olg=" Samples.ticket_url ∅ Samples.ticket
           _ "/api/v2/tickets/1" Samples.conflict_response e
           eq_refl eq_refl eq_refl (fun _ => eq_refl)).
  simpl. right. left.
Defined.

(** ** Callbacks that throw, and the [catch] block *)



(** X12: what the handler throws inside the [catch] block is not caught.
    For a transport error that carries a response with a status of the
    default label and a nil body, the run is the HTTP call and a promise
    rejected with a TypeError; the callback is never called. *)
Theorem makeRequest_error_response_unhandled (rt : Runtime) (cb : Callback)
    (method auth url : string) (qs : gmap string string) (data : JsValue)
    (options : Options.t) (path : string) (error : JsError.t)
    (response : Response.t) (parsed : JsValue) :
  build_options method auth qs data = ret options ->
  URL_pathname rt url = Some path ->
  request rt url options = Rejected error ->
  JsError.response error = Some response ->
  default_branch (Response.statusCode response) ->
  await_json (Response.body response) = ret parsed ->
  isNil parsed = true ->
  exists message : string,
    makeRequest rt cb method auth url qs data =
    ([Requested url options], Throw (TypeError message)).
Proof.
  intros Hoptions Hpath Hres Hresp Hs Hparsed Hnil.
  rewrite (makeRequest_rejected rt cb method auth url qs data options path
             Hoptions Hpath error Hres).
  unfold on_error. rewrite Hresp, Hparsed, bind_ret.
  destruct (handler_response_cases cb response parsed (make_req options url path))
    as [(_ & _ & message & ->) | (c & _ & Hcalled)].
  - by exists message.
  - rewrite (Hcalled Hs) in Hnil. done.
Qed.

Lemma makeRequest_error_response_unhandled_witness :
  exists message : string,
    makeRequest
      (Samples.runtime (Rejected (Samples.failed_with Samples.server_error_response)))
      Samples.quiet "GET" "Basic a2V5Olg=" Samples.ticket_url ∅ JUndefined =
    ([Requested Samples.ticket_url Samples.get_options],
     Throw (TypeError message)).
Proof.
  apply (makeRequest_error_response_unhandled
           (Samples.runtime (Rejected (Samples.failed_with Samples.server_error_response)))
           Samples.quiet "GET" "Basic a2V5Olg=" Samples.ticket_url ∅ JUndefined
           Samples.get_options "/api/v2/tickets/1"
           (Samples.failed_with Samples.server_error_response)
           Samples.server_error_response JNull);
    try reflexivity.
  unfold default_branch; simpl. lia.
Defined.

(** ** What the handler looks at *)

(** X13: of a response the handler reads the status and the two headers
    [link] and [x-request-id], nothing else: two responses that agree on
    these get the same treatment, whatever their other headers and their
    body streams, for every body handed over and every callback. *)
Theorem handler_reads_status_and_two_headers (cb : Callback)
    (r1 r2 : Response.t) (body : JsValue) (req : Request.t) :
  Response.statusCode r1 = Response.statusCode r2 ->
  Response.headers r1 !! "link" = Response.headers r2 !! "link" ->
  Response.headers r1 !! "x-request-id" = Response.headers r2 !! "x-request-id" ->
  createResponseHandler cb None (FromTransport r1) body req =
  createResponseHandler cb None (FromTransport r2) body req.
Proof.
  intros Hstatus Hlink Hid.
  assert (make_extra (FromTransport r1) = make_extra (FromTransport r2)) as Hextra
    by (by rewrite !make_extra_response, Hlink, Hid).
  destruct (status_cases (Response.statusCode r1))
    as [Hs | [Hs | [Hs | [Hs | Hs]]]].
  - rewrite !handler_200_201, Hextra by (left; congruence). done.
  - rewrite !handler_200_201, Hextra by (right; congruence). done.
  - rewrite !handler_204, Hextra by congruence. done.
  - rewrite !handler_404, Hid by congruence. done.
  - rewrite !handler_default by (by rewrite <- ?Hstatus).
    destruct (GetV_cases body "description") as [(message & -> & _) | [-> _]];
      [done |].
    by rewrite !bind_ret, !new_FreshdeskError_response, Hstatus, Hid.
Qed.

Lemma handler_reads_status_and_two_headers_witness :
  createResponseHandler Samples.quiet None
    (FromTransport
       (Response.mk 409 (<["content-type" := HStr "application/json"]> Samples.with_request_id)
          None))
    Samples.conflict_body Samples.get_ticket =
  createResponseHandler Samples.quiet None
    (FromTransport Samples.conflict_response) Samples.conflict_body
    Samples.get_ticket.
Proof.
  apply (handler_reads_status_and_two_headers Samples.quiet
           (Response.mk 409 (<["content-type" := HStr "application/json"]> Samples.with_request_id)
              None)
           Samples.conflict_response Samples.conflict_body Samples.get_ticket);
    reflexivity.
Defined.
